(** * simple-google-search-mcp: a shallow embedding of the request handlers

    The development follows [src/content-fetcher.ts] (class [ContentFetcher])
    and [src/index.ts] (class [GoogleSearchService]).  JavaScript strings are
    sequences of UTF-16 code units, JavaScript objects used as dictionaries
    are finite maps with a prototype slot, and asynchronous handlers are
    computations over a trace of the outbound effects they perform (calls
    of [getApiKeys] and of [axios.get]; console output is left out). *)

From Stdlib Require Import ZArith NArith Ascii String List Lia.
From stdpp Require Import base option list gmap sets.

Set Warnings "-register-all".

Open Scope N_scope.

(** ** JavaScript strings *)

(** A JavaScript string is a finite sequence of 16-bit code units. *)
Abbreviation jsstring := (list N).

Module JsString.

(** Bytes of a source-text literal. *)
Fixpoint bytes (s : string) : list N :=
  match s with
  | EmptyString => []
  | String c s' => N_of_ascii c :: bytes s'
  end.

(** UTF-8 byte sequence to Unicode code points (ill-formed input is
    passed through byte by byte). *)
Fixpoint utf8_decode (bs : list N) : list N :=
  match bs with
  | [] => []
  | b0 :: r0 =>
      if b0 <? 128 then b0 :: utf8_decode r0
      else if b0 <? 224 then
        match r0 with
        | b1 :: r1 => ((b0 - 192) * 64 + (b1 - 128)) :: utf8_decode r1
        | [] => [b0]
        end
      else if b0 <? 240 then
        match r0 with
        | b1 :: b2 :: r2 =>
            ((b0 - 224) * 4096 + (b1 - 128) * 64 + (b2 - 128)) :: utf8_decode r2
        | _ => b0 :: utf8_decode r0
        end
      else
        match r0 with
        | b1 :: b2 :: b3 :: r3 =>
            ((b0 - 240) * 262144 + (b1 - 128) * 4096 + (b2 - 128) * 64 + (b3 - 128))
              :: utf8_decode r3
        | _ => b0 :: utf8_decode r0
        end
  end.

(** Code points to UTF-16 code units (surrogate pairs above the BMP). *)
Definition utf16_encode (cps : list N) : jsstring :=
  flat_map (fun cp =>
              if cp <? 65536 then [cp]
              else [55296 + (cp - 65536) / 1024; 56320 + (cp - 65536) mod 1024]) cps.

(** The escape sequence backslash-n of a JavaScript literal. *)
Fixpoint unescape (s : jsstring) : jsstring :=
  match s with
  | 92 :: 110 :: s' => 10 :: unescape s'
  | c :: s' => c :: unescape s'
  | [] => []
  end.

(** [js lit] is the value of the JavaScript string literal whose source
    text (UTF-8, with backslash-n escapes) is [lit]. *)
Definition js (lit : string) : jsstring :=
  unescape (utf16_encode (utf8_decode (bytes lit))).

(** White space as the ECMAScript grammar defines it (WhiteSpace and
    LineTerminator): the class matched by [\s] and stripped by [trim]. *)
Definition is_whitespace (c : N) : bool :=
  (9 <=? c) && (c <=? 13)
  || (c =? 32) || (c =? 160) || (c =? 5760)
  || (8192 <=? c) && (c <=? 8202)
  || (c =? 8232) || (c =? 8233) || (c =? 8239) || (c =? 8287)
  || (c =? 12288) || (c =? 65279).

Fixpoint trimStart (s : jsstring) : jsstring :=
  match s with
  | c :: s' => if is_whitespace c then trimStart s' else s
  | [] => []
  end.

Definition trimEnd (s : jsstring) : jsstring := rev (trimStart (rev s)).

(** [String.prototype.trim]. *)
Definition trim (s : jsstring) : jsstring := trimEnd (trimStart s).

(** [s.replace(/\s+/g, ' ')]: every maximal run of white space becomes
    one space. *)
Fixpoint collapse_from (in_ws : bool) (s : jsstring) : jsstring :=
  match s with
  | [] => []
  | c :: s' =>
      if is_whitespace c
      then (if in_ws then collapse_from true s' else 32 :: collapse_from true s')
      else c :: collapse_from false s'
  end.

Definition replace_ws_runs (s : jsstring) : jsstring := collapse_from false s.

(** [s.split(/\s+/)]: the pieces between maximal runs of white space.  A
    run at either end of the string yields an empty piece there, and the
    empty string yields one empty piece.  [cur] holds the piece under
    construction, reversed. *)
Fixpoint split_from (in_ws : bool) (cur : jsstring) (s : jsstring) : list jsstring :=
  match s with
  | [] => [rev cur]
  | c :: s' =>
      if is_whitespace c
      then (if in_ws then split_from true cur s'
            else rev cur :: split_from true [] s')
      else split_from false (c :: cur) s'
  end.

Definition split_ws (s : jsstring) : list jsstring := split_from false [] s.

(** Truthiness of a string (what [Boolean] and [||] test). *)
Definition truthy (s : jsstring) : bool :=
  match s with [] => false | _ => true end.

(** [s.substring(0, n)]. *)
Definition substring0 (n : nat) (s : jsstring) : jsstring := take n s.

(** [c.repeat(n)] for a one-unit string. *)
Definition repeat1 (c : N) (n : nat) : jsstring := replicate n c.

(** Lower-casing of the ASCII letters (tag names are ASCII). *)
Definition ascii_lower (s : jsstring) : jsstring :=
  map (fun c => if (65 <=? c) && (c <=? 90) then c + 32 else c) s.

Definition is_digit (c : N) : bool := (48 <=? c) && (c <=? 57).

Fixpoint digits_from (acc : option nat) (s : jsstring) : option nat :=
  match s with
  | c :: s' =>
      if is_digit c
      then digits_from (Some (10 * default 0%nat acc + N.to_nat (c - 48))%nat) s'
      else acc
  | [] => acc
  end.

(** [parseInt(s)] on unsigned decimal text: the value of the longest
    prefix of digits after leading white space, [None] for NaN. *)
Definition parseInt (s : jsstring) : option nat := digits_from None (trimStart s).

Definition startsWith (p s : jsstring) : bool :=
  bool_decide (take (length p) s = p).

End JsString.

Import JsString.


(** ** JavaScript numbers and values *)

Module Number.

(** The values of the Number type: a finite double is [m * 2 ^ e]; the
    two zeros are not told apart. *)
Inductive number : Type :=
| Finite (m e : Z)
| NaN
| PosInf
| NegInf.

Definition of_Z (z : Z) : number := Finite z 0.

(** [x < y]; any comparison with NaN is false. *)
Definition ltb (x y : number) : bool :=
  match x, y with
  | Finite m1 e1, Finite m2 e2 =>
      let k := Z.min e1 e2 in
      (m1 * 2 ^ (e1 - k) <? m2 * 2 ^ (e2 - k))%Z
  | Finite _ _, PosInf => true
  | NegInf, Finite _ _ => true
  | NegInf, PosInf => true
  | _, _ => false
  end.

Definition gtb (x y : number) : bool := ltb y x.

(** ToBoolean: zero and NaN are falsy. *)
Definition truthy (x : number) : bool :=
  match x with
  | Finite m _ => negb (m =? 0)%Z
  | NaN => false
  | PosInf | NegInf => true
  end.

End Number.

Export Number(number, Finite, NaN, PosInf, NegInf).

#[global] Instance number_eq_dec : EqDecision number.
Proof. solve_decision. Defined.

(** Values that cross the boundary as parsed JSON: the body of an upstream
    response and the fields copied out of it.  [JFun] is a built-in
    function object reached through a prototype. *)
Inductive JSValue : Type :=
| JUndefined
| JNull
| JBool (b : bool)
| JNum (x : number)
| JStr (s : jsstring)
| JArr (elems : list JSValue)
| JObj (fields : list (jsstring * JSValue))
| JFun (name : jsstring).

(** A property key as the source writes it: an identifier or string
    literal, or the numeric literal of an element access. *)
Inductive PropKey : Type :=
| Named (k : jsstring)
| Index (i : nat).

Module Value.

(** ToBoolean. *)
Definition truthy (v : JSValue) : bool :=
  match v with
  | JUndefined | JNull => false
  | JBool b => b
  | JNum x => Number.truthy x
  | JStr s => JsString.truthy s
  | JArr _ | JObj _ | JFun _ => true
  end.

(** [a || b]. *)
Definition or (a b : JSValue) : JSValue := if truthy a then a else b.

Definition isArray (v : JSValue) : bool :=
  match v with JArr _ => true | _ => false end.

(** The binding of [k] that JSON.parse keeps: the last one. *)
Fixpoint field (k : jsstring) (fields : list (jsstring * JSValue)) : option JSValue :=
  match fields with
  | [] => None
  | (k', v) :: rest =>
      match field k rest with
      | Some v' => Some v'
      | None => if decide (k' = k) then Some v else None
      end
  end.

Fixpoint decimal_digits (fuel : nat) (n : nat) (acc : jsstring) : jsstring :=
  match fuel with
  | O => acc
  | S fuel' =>
      let acc' := (48 + N.of_nat (n mod 10)) :: acc in
      if (n <? 10)%nat then acc' else decimal_digits fuel' (n / 10) acc'
  end.

(** The property name of an array index. *)
Definition index_name (i : nat) : jsstring := decimal_digits (S i) i [].

(** [v[k]] for the keys the handlers read ([items], [title], [link],
    [snippet], [pagemap], [displayLink], [metatags], [0],
    ['article:published_time'], and in [handleError]: [error], [code],
    [message], [errors], [reason], [length]).  [None] is the TypeError of a property
    access on undefined or null.  Of the prototypes only
    [String.prototype.link] is reachable with these keys. *)
Definition get (v : JSValue) (k : PropKey) : option JSValue :=
  match v with
  | JUndefined | JNull => None
  | JObj fields =>
      Some (default JUndefined
              (field (match k with Named s => s | Index i => index_name i end) fields))
  | JArr elems =>
      Some (match k with
            | Index i => default JUndefined (elems !! i)
            | Named s =>
                if decide (s = js "length")
                then JNum (Number.of_Z (Z.of_nat (length elems)))
                else JUndefined
            end)
  | JStr s =>
      Some (match k with
            | Index i => match s !! i with Some c => JStr [c] | None => JUndefined end
            | Named n =>
                if decide (n = js "length")
                then JNum (Number.of_Z (Z.of_nat (length s)))
                else if decide (n = js "link") then JFun (js "link")
                else JUndefined
            end)
  | JBool _ | JNum _ | JFun _ => Some JUndefined
  end.

(** [v?.[k]]. *)
Definition get_opt (v : JSValue) (k : PropKey) : JSValue :=
  default JUndefined (get v k).

(** [v == null]: undefined or null. *)
Definition is_nullish (v : JSValue) : bool :=
  match v with JUndefined | JNull => true | _ => false end.

End Value.

(** ** Thrown values, outcomes and the trace of outbound effects *)

Record HttpResponse : Type := {
  status : number;
  data : JSValue
}.

(** What a [catch] clause can receive: an [Error] (or a subclass such as
    TypeError) with its message, an AxiosError with its optional
    [response], or a value that is not an [Error]. *)
Inductive Thrown : Type :=
| Err (message : jsstring)
| AxiosErr (message : jsstring) (response : option HttpResponse)
| NonErr (v : JSValue).

Inductive Outcome (A : Type) : Type :=
| Return (a : A)
| Throw (e : Thrown).
Arguments Return {A} a.
Arguments Throw {A} e.

(** Query parameters of the upstream search call. *)
Record SearchParams : Type := {
  key : jsstring;
  cx : jsstring;
  q : jsstring;
  num : number;
  dateRestrict : option jsstring;
  lr : option jsstring;
  cr : option jsstring;
  safe : jsstring
}.

Record Request : Type := {
  req_url : jsstring;
  req_headers : list (jsstring * jsstring);
  req_params : option SearchParams
}.

(** Outbound effects, in the order they happen. *)
Inductive Event : Type :=
| GetApiKeys
| AxiosGet (req : Request).

Abbreviation Trace := (list Event).

Definition is_request (e : Event) : bool :=
  match e with AxiosGet _ => true | GetApiKeys => false end.

(** Requests issued so far. *)
Definition requests (t : Trace) : nat := length (filter (fun e => is_request e = true) t).

(** An asynchronous computation: it extends the trace and settles. *)
Definition M (A : Type) : Type := Trace -> Outcome A * Trace.

Definition ret {A} (a : A) : M A := fun t => (Return a, t).
Definition throw {A} (e : Thrown) : M A := fun t => (Throw e, t).
Definition bind {A B} (m : M A) (k : A -> M B) : M B :=
  fun t => match m t with
           | (Return a, t') => k a t'
           | (Throw e, t') => (Throw e, t')
           end.
Definition try_catch {A} (m : M A) (h : Thrown -> M A) : M A :=
  fun t => match m t with
           | (Return a, t') => (Return a, t')
           | (Throw e, t') => h e t'
           end.
Definition lift {A} (o : Outcome A) : M A := fun t => (o, t).
Definition emit (e : Event) : M unit := fun t => (Return tt, t ++ [e]).

Notation "'let*' x ':=' m 'in' k" := (bind m (fun x => k))
  (at level 10, x name, m at level 100, k at level 200).

(** ** Objects used as dictionaries *)

(** A plain object created by the literal [{}]: its own properties and its
    prototype slot ([None] is the initial [Object.prototype]). *)
Record JSObject (V : Type) : Type := {
  own : gmap jsstring V;
  proto : option V
}.
Arguments own {V} _.
Arguments proto {V} _.

Module Obj.

Definition empty {V} : JSObject V := {| own := ∅; proto := None |}.

Definition PROTO : jsstring := js "__proto__".

(** [o[k] = v] where [v] is an object.  The key [__proto__] is an accessor
    inherited from [Object.prototype]: assigning an object to it replaces
    the prototype of [o] and creates no own property. *)
Definition assign_object {V} (o : JSObject V) (k : jsstring) (v : V) : JSObject V :=
  if decide (k = PROTO)
  then {| own := own o; proto := Some v |}
  else {| own := <[k := v]> (own o); proto := proto o |}.

(** [o[k] = v] where [v] is a primitive: the [__proto__] setter ignores
    it. *)
Definition assign_primitive {V} (o : JSObject V) (k : jsstring) (v : V) : JSObject V :=
  if decide (k = PROTO)
  then o
  else {| own := <[k := v]> (own o); proto := proto o |}.

(** The set behind [Object.keys(o)]. *)
Definition keys {V} (o : JSObject V) : gset jsstring := dom (own o).

End Obj.

(** ** Documents and the cheerio queries the extractor runs *)

(** The nodes of the parsed tree.  [Fragment] is the content of a
    [template] element: the parser keeps it in a root node of its own,
    the single child of the element.  That node is no tag, so the selector
    engine neither tests it nor walks below it, while [.text()] reads
    through it as through any node with children. *)
Inductive Node : Type :=
| Elem (tagName : jsstring) (attribs : list (jsstring * jsstring)) (children : list Node)
| TextNode (data : jsstring)
| Comment (data : jsstring)
| Fragment (content : list Node).

(** The children of the document root, as the parser built them (tag names
    in lower case, the first of duplicate attributes kept). *)
Abbreviation Document := (list Node).

Module Cheerio.

(** A compound selector: tag, [.class], [#id] and [[name="value"]] parts,
    each optional. *)
Record Compound : Type := {
  sel_tag : option jsstring;
  sel_class : option jsstring;
  sel_id : option jsstring;
  sel_attr : option (jsstring * jsstring)
}.

(** A comma-separated selector list. *)
Abbreviation Selector := (list Compound).

Definition tag (t : string) : Compound :=
  {| sel_tag := Some (js t); sel_class := None; sel_id := None; sel_attr := None |}.
Definition class (t : option string) (c : string) : Compound :=
  {| sel_tag := js <$> t; sel_class := Some (js c); sel_id := None; sel_attr := None |}.
Definition ident (t : option string) (i : string) : Compound :=
  {| sel_tag := js <$> t; sel_class := None; sel_id := Some (js i); sel_attr := None |}.
Definition tag_attr (t n v : string) : Compound :=
  {| sel_tag := Some (js t); sel_class := None; sel_id := None;
     sel_attr := Some (js n, js v) |}.

(** [.attr(name)] of one element; [None] is undefined. *)
Fixpoint attr (name : jsstring) (attribs : list (jsstring * jsstring)) : option jsstring :=
  match attribs with
  | [] => None
  | (n, v) :: rest => if decide (n = name) then Some v else attr name rest
  end.

Definition holds {A} (o : option A) (P : A -> bool) : bool :=
  match o with None => true | Some a => P a end.

Definition class_list (attribs : list (jsstring * jsstring)) : list jsstring :=
  match attr (js "class") attribs with
  | Some v => split_ws v
  | None => []
  end.

Definition matches_compound (c : Compound) (t : jsstring)
    (attribs : list (jsstring * jsstring)) : bool :=
  holds (sel_tag c) (fun n => bool_decide (n = t))
  && holds (sel_class c) (fun k => truthy k && bool_decide (k ∈ class_list attribs))
  && holds (sel_id c) (fun i => bool_decide (attr (js "id") attribs = Some i))
  && holds (sel_attr c) (fun nv => bool_decide (attr nv.1 attribs = Some nv.2)).

Definition matches (sel : Selector) (t : jsstring)
    (attribs : list (jsstring * jsstring)) : bool :=
  existsb (fun c => matches_compound c t attribs) sel.

(** [$(sel)] below one node: the matching elements in document order.
    Only elements are tested and walked, so the content of a [template]
    is out of reach. *)
Fixpoint select_node (sel : Selector) (n : Node) : list Node :=
  match n with
  | Elem t a cs =>
      (if matches sel t a then [n] else []) ++ flat_map (select_node sel) cs
  | _ => []
  end.

(** [$(sel)] on a document. *)
Definition select (sel : Selector) (doc : Document) : list Node :=
  flat_map (select_node sel) doc.

(** [$(sel).remove()]: every matching element leaves its parent. *)
Fixpoint remove_node (sel : Selector) (n : Node) : list Node :=
  match n with
  | Elem t a cs =>
      if matches sel t a then [] else [Elem t a (flat_map (remove_node sel) cs)]
  | _ => [n]
  end.

Definition remove (sel : Selector) (doc : Document) : Document :=
  flat_map (remove_node sel) doc.

(** The same removal as seen through references to the [ctx] elements
    that were taken before it: what matched [sel] below a [ctx] element
    is gone from it, while the [ctx] element itself (and whatever
    encloses it) stays reachable through the reference. *)
Fixpoint remove_below_node (ctx sel : Selector) (inside : bool) (n : Node) : list Node :=
  match n with
  | Elem t a cs =>
      if inside && matches sel t a then []
      else [Elem t a (flat_map (remove_below_node ctx sel (inside || matches ctx t a)) cs)]
  | _ => [n]
  end.

Definition remove_below (ctx sel : Selector) (doc : Document) : Document :=
  flat_map (remove_below_node ctx sel false) doc.

(** [$(ctx).find(sel)]: the elements matching [sel] that lie strictly
    below some [ctx] element, each once, in document order. *)
Fixpoint find_node (ctx sel : Selector) (inside : bool) (n : Node) : list Node :=
  match n with
  | Elem t a cs =>
      (if inside && matches sel t a then [n] else [])
        ++ flat_map (find_node ctx sel (inside || matches ctx t a)) cs
  | _ => []
  end.

Definition find (ctx sel : Selector) (doc : Document) : list Node :=
  flat_map (find_node ctx sel false) doc.

(** [.text()] of one node: the text nodes below it, concatenated, those
    of a [template]'s content included. *)
Fixpoint text_node (n : Node) : jsstring :=
  match n with
  | Elem _ _ cs | Fragment cs => flat_map text_node cs
  | TextNode d => d
  | Comment _ => []
  end.

(** [.text()] of a selection. *)
Definition text (sel : list Node) : jsstring := flat_map text_node sel.

(** [.attr(name)] of a selection: that of its first element. *)
Definition attr_first (name : jsstring) (sel : list Node) : option jsstring :=
  match sel with
  | Elem _ a _ :: _ => attr name a
  | _ => None
  end.

(** No element that a selector can reach in the subtree, its root
    included, matches [sel]. *)
Fixpoint free_of (sel : Selector) (n : Node) : bool :=
  match n with
  | Elem t a cs => negb (matches sel t a) && forallb (free_of sel) cs
  | _ => true
  end.

End Cheerio.

(** ** Results exchanged with the caller *)

(** [WebpageContent], with the fields of the object literal that
    [fetchContent] builds ([stats] and [content_preview] flattened; the
    type declarations of [types.ts] are not among the sources). *)
Record WebpageContent : Type := {
  url : jsstring;
  title : jsstring;
  description : jsstring;
  markdown_content : jsstring;
  meta_tags : JSObject jsstring;
  word_count : nat;
  approximate_chars : nat;
  first_500_chars : jsstring
}.

(** A value of [WebpageAnalysisResponse]: the content of a page, or
    [{ error: message }]. *)
Inductive BatchEntry : Type :=
| Content (c : WebpageContent)
| ErrorEntry (error : jsstring).

Definition has_error (e : BatchEntry) : bool :=
  match e with ErrorEntry _ => true | Content _ => false end.

Abbreviation WebpageAnalysisResponse := (JSObject BatchEntry).

Record SearchResult : Type := {
  sr_title : JSValue;
  sr_link : JSValue;
  sr_snippet : JSValue;
  sr_pagemap : JSValue;
  sr_datePublished : JSValue;
  sr_source : JSValue
}.

(** What a handler serialises with [JSON.stringify(_, null, 2)]. *)
Inductive Payload : Type :=
| SearchResults (results : list SearchResult)
| Page (content : WebpageContent)
| Batch (results : WebpageAnalysisResponse).

(** The tool response: the text of its single content item and the
    [isError] flag (absent reads as [false]). *)
Record ToolResponse : Type := {
  text : jsstring;
  isError : bool
}.

(** ** The environment of a request *)

Record URL : Type := {
  protocol : jsstring;
  hostname : jsstring
}.

(** Everything a handler obtains from outside the repository: the process
    environment, the runtime's built-ins, the two libraries and the
    network. *)
Record World : Type := {
  (** [process.env] *)
  NODE_ENV : option jsstring;
  GOOGLE_API_KEY : option jsstring;
  GOOGLE_SEARCH_ENGINE_ID : option jsstring;
  (** [new URL(s)]; [None] when the constructor throws its TypeError *)
  URL_new : jsstring -> option URL;
  URL_error : jsstring -> jsstring;
  (** how [axios.get] settles for the request issued after [n] others *)
  axios_get : nat -> Request -> Outcome HttpResponse;
  (** [cheerio.load] *)
  cheerio_load : JSValue -> Outcome Document;
  (** [String.prototype.toUpperCase], ToString, ToNumber, [JSON.stringify]
      and the message of the TypeError raised on a bad property access or
      call *)
  toUpperCase : jsstring -> jsstring;
  ToString : JSValue -> jsstring;
  ToNumber : JSValue -> number;
  JSON_stringify : Payload -> jsstring;
  TypeError_message : JSValue -> PropKey -> jsstring;
  (** the order in which the callbacks of a [Promise.all] resume: indices
      listed here first, the others after them *)
  settle_order : list nat
}.

Definition test_mode (w : World) : bool :=
  bool_decide (NODE_ENV w = Some (js "test")).

(** [axios.get(url, config)]: the request goes out, then settles.  The
    code configures no timeout; a request that never settles is not among
    the outcomes a world describes. *)
Definition axios (w : World) (req : Request) : M HttpResponse :=
  fun t => (axios_get w (requests t) req, t ++ [AxiosGet req]).

Fixpoint mapM {A B} (f : A -> M B) (l : list A) : M (list B) :=
  match l with
  | [] => ret []
  | a :: l' => let* b := f a in let* bs := mapM f l' in ret (b :: bs)
  end.

Fixpoint foldM {A B} (f : B -> A -> M B) (l : list A) (b : B) : M B :=
  match l with
  | [] => ret b
  | a :: l' => let* b' := f b a in foldM f l' b'
  end.

(** The order in which [n] pending callbacks resume. *)
Definition completion_order (preferred : list nat) (n : nat) : list nat :=
  let first := filter (fun i => (i < n)%nat) (remove_dups preferred) in
  first ++ filter (fun i => i ∉ first) (seq 0 n).

(** ** src/content-fetcher.ts *)

Module ContentFetcher.
Import Cheerio.

Definition HEADERS : list (jsstring * jsstring) :=
  [ (js "User-Agent",
     js "Mozilla/5.0 (Windows NT 10.0; Win64; x64) AppleWebKit/537.36 (KHTML, like Gecko) Chrome/91.0.4472.124 Safari/537.36");
    (js "Accept",
     js "text/html,application/xhtml+xml,application/xml;q=0.9,image/webp,*/*;q=0.8");
    (js "Accept-Language", js "en-US,en;q=0.5") ].

(** Error messages, as the source spells them. *)
Definition INVALID_URL_FORMAT : jsstring := js "無効なURL形式: ".
Definition LIMIT_EXCEEDED : jsstring :=
  js "パフォーマンスを維持するため、一度に最大5つのURLまでに制限されています。".
Definition UNKNOWN_ERROR : jsstring := js "不明なエラーが発生しました".

(** Selectors, as the source spells them. *)
Definition NOISE : Selector :=
  [ tag "script"; tag "style"; tag "nav"; tag "footer"; tag "header"; tag "aside";
    tag "iframe"; class None "ads"; class None "advertisement"; class None "banner";
    ident None "banner"; ident None "ads" ].
Definition MAIN : Selector := [ tag "main" ].
Definition ARTICLE : Selector := [ tag "article" ].
Definition DIV_ROLE_MAIN : Selector := [ tag_attr "div" "role" "main" ].
Definition DIV_CONTENT : Selector :=
  [ class (Some "div"%string) "content"; class (Some "div"%string) "main";
    ident (Some "div"%string) "content"; ident (Some "div"%string) "main" ].
Definition BODY : Selector := [ tag "body" ].
Definition BLOCKS : Selector :=
  [ tag "h1"; tag "h2"; tag "h3"; tag "h4"; tag "h5"; tag "h6";
    tag "p"; tag "ul"; tag "ol"; tag "blockquote" ].
Definition LI : Selector := [ tag "li" ].

(** [a || b] on optional strings. *)
Definition or_else (a b : option jsstring) : option jsstring :=
  match a with
  | Some s => if truthy s then a else b
  | None => b
  end.

Definition is_truthy (a : option jsstring) : bool :=
  match a with Some s => truthy s | None => false end.

(** Lines 48-55: the meta tags keyed by [name] or [property]. *)
Definition collect_meta (doc : Document) : JSObject jsstring :=
  fold_left
    (fun metaTags element =>
       match element with
       | Elem _ a _ =>
           let name := or_else (attr (js "name") a) (attr (js "property") a) in
           let content := attr (js "content") a in
           match name, content with
           | Some n, Some c =>
               if truthy n && truthy c then Obj.assign_primitive metaTags n c
               else metaTags
           | _, _ => metaTags
           end
       | _ => metaTags
       end)
    (select [ tag "meta" ] doc) Obj.empty.

(** Lines 58-82: the elements [mainContent.find(sel)] visits.  The noise
    is removed from the document first; [body] was selected before the
    removal and is used when no other region matches. *)
Definition mainContent_find (sel : Selector) (doc : Document) : list Node :=
  let cleaned := remove NOISE doc in
  if (0 <? length (select MAIN cleaned))%nat then find MAIN sel cleaned
  else if (0 <? length (select ARTICLE cleaned))%nat then find ARTICLE sel cleaned
  else if (0 <? length (select DIV_ROLE_MAIN cleaned))%nat
       then find DIV_ROLE_MAIN sel cleaned
  else if (0 <? length (select DIV_CONTENT cleaned))%nat
       then find DIV_CONTENT sel cleaned
  else find BODY sel (remove_below BODY NOISE doc).

(** Lines 83-101: what one visited element appends to [markdownContent]. *)
Definition render (element : Node) : jsstring :=
  match element with
  | Elem t _ cs =>
      let tagName := ascii_lower t in
      let text := replace_ws_runs (trim (text_node element)) in
      if negb (truthy text) then []
      else if startsWith (js "h") tagName then
        let level := drop 1 tagName in
        let prefix := repeat1 35 (default 0%nat (parseInt level)) in
        prefix ++ js " " ++ text ++ js "\n\n"
      else if decide (tagName = js "p") then text ++ js "\n\n"
      else if decide (tagName = js "ul" \/ tagName = js "ol") then
        flat_map (fun li => js "- " ++ trim (text_node li) ++ js "\n") (select LI cs)
          ++ js "\n"
      else if decide (tagName = js "blockquote") then js "> " ++ text ++ js "\n\n"
      else []
  | _ => []
  end.

(** Lines 39-121: from the parsed document to the result. *)
Definition extract (url : jsstring) (doc : Document) : WebpageContent :=
  let title := trim (text (select [ tag "title" ] doc)) in
  let description :=
    or_else (attr_first (js "content") (select [ tag_attr "meta" "name" "description" ] doc))
            (attr_first (js "content")
               (select [ tag_attr "meta" "property" "og:description" ] doc)) in
  let markdownContent := flat_map render (mainContent_find BLOCKS doc) in
  let wordCount := length (filter (fun piece => truthy piece = true) (split_ws markdownContent)) in
  {| url := url;
     title := if truthy title then title else js "No Title";
     description := if is_truthy description then default [] description else [];
     markdown_content := markdownContent;
     meta_tags := collect_meta doc;
     word_count := wordCount;
     approximate_chars := length markdownContent;
     first_500_chars := substring0 500 markdownContent |}.

Definition MOCK_BODY (domain : jsstring) : jsstring :=
  js "# Mock Content for " ++ domain
    ++ js "\n\nThis is a mock webpage content generated for testing purposes.\n\n## Section 1\n\nLorem ipsum dolor sit amet, consectetur adipiscing elit.\n\n## Section 2\n\nUt enim ad minim veniam, quis nostrud exercitation ullamco laboris.".

(** Lines 175-197. *)
Definition generateMockWebpageContent (w : World) (url : jsstring) : Outcome WebpageContent :=
  match URL_new w url with
  | None => Throw (Err (URL_error w url))
  | Some urlObj =>
      let domain := hostname urlObj in
      Return
        {| url := url;
           title := js "Mock Page Title for " ++ domain;
           description :=
             js "This is a mock webpage description for testing purposes. URL: " ++ url;
           markdown_content := MOCK_BODY domain;
           meta_tags :=
             {| own := {[ js "author" := js "Mock Generator";
                          js "description" := js "Mock webpage for " ++ domain;
                          js "keywords" := js "mock, test, webpage" ]};
                proto := None |};
           word_count := 50;
           approximate_chars := 300;
           first_500_chars := MOCK_BODY domain |}
  end.

(** Lines 122-131: the [catch] clause of [fetchContent]. *)
Definition rethrow (w : World) (url : jsstring) (error : Thrown) : Thrown :=
  match error with
  | AxiosErr _ (Some response) =>
      Err (js "ウェブページの取得に失敗しました (HTTP " ++ ToString w (JNum (status response))
             ++ js "): " ++ url)
  | Err message | AxiosErr message None => Err (js "コンテンツ抽出エラー: " ++ message)
  | NonErr _ => Err (js "コンテンツの抽出に失敗しました: " ++ url)
  end.

(** Lines 28-34: the request for a page. *)
Definition page_request (url : jsstring) : Request :=
  {| req_url := url; req_headers := HEADERS; req_params := None |}.

(** Lines 12-132. *)
Definition fetchContent (w : World) (url : jsstring) : M WebpageContent :=
  if test_mode w then lift (generateMockWebpageContent w url)
  else
    try_catch
      (let* _ := match URL_new w url with
                 | Some _ => ret tt
                 | None => throw (Err (INVALID_URL_FORMAT ++ url))
                 end in
       let* response := axios w (page_request url) in
       let* doc := lift (cheerio_load w (data response)) in
       ret (extract url doc))
      (fun error => throw (rethrow w url error)).

(** Lines 156-167: one callback of the parallel map; it never rejects. *)
Definition attempt (w : World) (url : jsstring) : M BatchEntry :=
  try_catch
    (let* content := fetchContent w url in ret (Content content))
    (fun error =>
       match error with
       | Err message | AxiosErr message _ => ret (ErrorEntry message)
       | NonErr _ => ret (ErrorEntry UNKNOWN_ERROR)
       end).

(** Lines 159-165: the assignment [results[url] = ...] of callback [i]. *)
Definition assign (urls : list jsstring) (settled : list BatchEntry)
    (results : WebpageAnalysisResponse) (i : nat) : WebpageAnalysisResponse :=
  match urls !! i, settled !! i with
  | Some url, Some entry => Obj.assign_object results url entry
  | _, _ => results
  end.

(** The assignments in the order the callbacks resume. *)
Definition collect (order : list nat) (urls : list jsstring) (settled : list BatchEntry)
    : WebpageAnalysisResponse :=
  fold_left (assign urls settled) order Obj.empty.

(** Lines 137-170.  Every callback runs up to its request before the
    first of them resumes, so the requests go out in the order of
    [urls]. *)
Definition batchFetchContent (w : World) (urls : list jsstring) : M WebpageAnalysisResponse :=
  if test_mode w then
    foldM (fun mockResults url =>
             let* content := lift (generateMockWebpageContent w url) in
             ret (Obj.assign_object mockResults url (Content content)))
          urls Obj.empty
  else if (5 <? length urls)%nat then throw (Err LIMIT_EXCEEDED)
  else
    let* settled := mapM (attempt w) urls in
    ret (collect (completion_order (settle_order w) (length urls)) urls settled).

End ContentFetcher.

(** ** src/config.ts *)

Module Config.

Definition MOCK_API_KEY : jsstring := js "mock_api_key".
Definition MOCK_SEARCH_ENGINE_ID : jsstring := js "mock_search_engine_id".

(** [process.env.X || fallback]. *)
Definition env_or (v : option jsstring) (fallback : jsstring) : jsstring :=
  match v with
  | Some s => if truthy s then s else fallback
  | None => fallback
  end.

(** The pair [(apiKey, searchEngineId)] that [getApiKeys()] returns. *)
Definition api_keys (w : World) : jsstring * jsstring :=
  if test_mode w
  then (env_or (GOOGLE_API_KEY w) MOCK_API_KEY,
        env_or (GOOGLE_SEARCH_ENGINE_ID w) MOCK_SEARCH_ENGINE_ID)
  else (env_or (GOOGLE_API_KEY w) [], env_or (GOOGLE_SEARCH_ENGINE_ID w) []).

(** [getApiKeys()]. *)
Definition getApiKeys (w : World) : M (jsstring * jsstring) :=
  let* _ := emit GetApiKeys in ret (api_keys w).

(** [validateApiKeys()]. *)
Definition validateApiKeys (w : World) : M bool :=
  if test_mode w then ret true
  else let* keys := getApiKeys w in ret (truthy keys.1 && truthy keys.2).

End Config.

(** ** src/index.ts *)

Module GoogleSearchService.
Import ContentFetcher.

Record SearchArgs : Type := {
  query : jsstring;
  num_results : option number;
  date_restrict : option jsstring;
  language : option jsstring;
  country : option jsstring;
  safe_search : option jsstring
}.

(** Response texts, as the source spells them. *)
Definition EMPTY_QUERY : jsstring :=
  js "検索クエリが空です。具体的なキーワードを入力してください。\nSearch query cannot be empty. Please provide specific keywords.".
Definition INVALID_RESULT_COUNT : jsstring :=
  js "検索結果数は1から10の間で指定してください。\nNumber of results must be between 1 and 10.".
Definition NO_RESULTS : jsstring :=
  js "検索結果が見つかりませんでした。検索条件を変更するか、APIキーの設定を確認してください。\nNo search results found. Please modify your search criteria or check your API key settings.".
Definition INVALID_URL : jsstring :=
  js "URLの形式が無効です。URLはhttp://またはhttps://で始まる必要があります。\nInvalid URL format. URL must start with http:// or https:// and be properly formatted.".
Definition TOO_MANY_URLS : jsstring :=
  js "パフォーマンスを維持するため、1リクエストあたり最大5つのURLまでに制限されています。URLの数を減らしてください。\nMaximum 5 URLs allowed per request to maintain performance. Please reduce the number of URLs.".
Definition NOTHING_EXTRACTED : jsstring :=
  js "どのURLからもコンテンツを抽出できませんでした。よくある問題:\n- ページが認証を必要とする\n- ページが公開されていない\n- コンテンツが動的に読み込まれる\n- URLがHTML以外のリソースを指している\n\nCould not extract content from any of the provided URLs. Common issues:\n- Pages require authentication\n- Pages are not publicly accessible\n- Content is dynamically loaded\n- URLs point to non-HTML resources".
Definition SEARCH_ENDPOINT : jsstring := js "https://www.googleapis.com/customsearch/v1".

Definition error_response (message : jsstring) : ToolResponse :=
  {| text := message; isError := true |}.

Definition success (w : World) (payload : Payload) : ToolResponse :=
  {| text := JSON_stringify w payload; isError := false |}.

(** Template-literal interpolation and numeric coercion of a value. *)
Definition to_string (w : World) (v : JSValue) : jsstring :=
  match v with JStr s => s | _ => ToString w v end.
Definition to_number (w : World) (v : JSValue) : number :=
  match v with JNum x => x | _ => ToNumber w v end.

(** [pieces.join(sep)]. *)
Fixpoint join (sep : jsstring) (pieces : list jsstring) : jsstring :=
  match pieces with
  | [] => []
  | [piece] => piece
  | piece :: rest => piece ++ sep ++ join sep rest
  end.

(** [v.k] where a TypeError is possible. *)
Definition read (w : World) (v : JSValue) (k : PropKey) : Outcome JSValue :=
  match Value.get v k with
  | Some x => Return x
  | None => Throw (Err (TypeError_message w v k))
  end.

Fixpoint mapO {A B} (f : A -> Outcome B) (l : list A) : Outcome (list B) :=
  match l with
  | [] => Return []
  | a :: l' =>
      match f a with
      | Throw e => Throw e
      | Return b =>
          match mapO f l' with
          | Throw e => Throw e
          | Return bs => Return (b :: bs)
          end
      end
  end.

(** Lines 87-112. *)
Definition handleError (w : World) (error : Thrown) (context : jsstring)
    : Outcome ToolResponse :=
  match error with
  | AxiosErr message (Some response) =>
      let errorInfo :=
        Value.or (Value.get_opt (data response) (Named (js "error"))) (JObj []) in
      let errorCode :=
        Value.or (Value.get_opt errorInfo (Named (js "code"))) (JNum (status response)) in
      let errorMessage :=
        Value.or (Value.get_opt errorInfo (Named (js "message"))) (JStr message) in
      let errorDetails :=
        Value.or (Value.get_opt errorInfo (Named (js "errors"))) (JArr []) in
      let detailedError :=
        context ++ js "に失敗しました (" ++ to_string w errorCode ++ js "): "
          ++ to_string w errorMessage ++ js "\n" ++ context ++ js " failed ("
          ++ to_string w errorCode ++ js "): " ++ to_string w errorMessage in
      if Number.gtb (to_number w (Value.get_opt errorDetails (Named (js "length"))))
                    (Number.of_Z 0)
      then
        match errorDetails with
        | JArr elems =>
            match mapO (fun e =>
                          match read w e (Named (js "reason")) with
                          | Throw x => Throw x
                          | Return reason =>
                              Return (js "- " ++ to_string w reason ++ js ": "
                                        ++ to_string w
                                             (Value.get_opt e (Named (js "message"))))
                          end) elems with
            | Throw x => Throw x
            | Return lines =>
                Return (error_response
                          (detailedError ++ js "\n\n詳細:\n" ++ join (js "\n") lines))
            end
        | _ => Throw (Err (TypeError_message w errorDetails (Named (js "map"))))
        end
      else Return (error_response detailedError)
  | _ =>
      let errorMessage :=
        match error with
        | Err message | AxiosErr message _ => message
        | NonErr _ => js "不明なエラー"
        end in
      Return (error_response
                (context ++ js "に失敗しました: " ++ errorMessage ++ js "\n" ++ context
                   ++ js " failed: " ++ errorMessage))
  end.

(** [flag ? prefix + flag : undefined] on an optional string. *)
Definition when_given (v : option jsstring) (f : jsstring -> jsstring) : option jsstring :=
  match v with
  | Some s => if truthy s then Some (f s) else None
  | None => None
  end.

(** Lines 265-274. *)
Definition build_params (w : World) (apiKey searchEngineId : jsstring) (args : SearchArgs)
    : SearchParams :=
  {| key := apiKey;
     cx := searchEngineId;
     q := query args;
     num := match num_results args with
            | Some n => if Number.truthy n then n else Number.of_Z 5
            | None => Number.of_Z 5
            end;
     dateRestrict := date_restrict args;
     lr := when_given (language args) (fun l => js "lang_" ++ l);
     cr := when_given (country args) (fun c => js "country" ++ toUpperCase w c);
     safe := Config.env_or (safe_search args) (js "off") |}.

(** Lines 276-278: the request to the search endpoint. *)
Definition search_request (params : SearchParams) : Request :=
  {| req_url := SEARCH_ENDPOINT; req_headers := []; req_params := Some params |}.

(** Lines 287-294: one upstream item. *)
Definition to_result (w : World) (item : JSValue) : Outcome SearchResult :=
  match read w item (Named (js "title")) with
  | Throw e => Throw e
  | Return t =>
      let pagemap := Value.get_opt item (Named (js "pagemap")) in
      let published :=
        Value.get_opt
          (Value.get_opt (Value.get_opt pagemap (Named (js "metatags"))) (Index 0))
          (Named (js "article:published_time")) in
      Return {| sr_title := t;
                sr_link := Value.get_opt item (Named (js "link"));
                sr_snippet := Value.get_opt item (Named (js "snippet"));
                sr_pagemap := pagemap;
                sr_datePublished := Value.or published (JStr []);
                sr_source :=
                  Value.or (Value.get_opt item (Named (js "displayLink"))) (JStr []) |}
  end.

(** The guard of line 255. *)
Definition count_rejected (n : option number) : bool :=
  match n with
  | Some x =>
      Number.truthy x && (Number.ltb x (Number.of_Z 1) || Number.gtb x (Number.of_Z 10))
  | None => false
  end.

(** Lines 280-303: what the handler makes of the response. *)
Definition interpret (w : World) (response : HttpResponse) : Outcome ToolResponse :=
  match read w (data response) (Named (js "items")) with
  | Throw e => Throw e
  | Return items =>
      if negb (Value.truthy items) || negb (Value.isArray items)
      then Return (error_response NO_RESULTS)
      else
        match mapO (to_result w) (match items with JArr elems => elems | _ => [] end) with
        | Throw e => Throw e
        | Return results => Return (success w (SearchResults results))
        end
  end.

(** Lines 247-307. *)
Definition handleSearch (w : World) (args : SearchArgs) : M ToolResponse :=
  if negb (truthy (trim (query args))) then ret (error_response EMPTY_QUERY)
  else if count_rejected (num_results args) then ret (error_response INVALID_RESULT_COUNT)
  else
    try_catch
      (let* keys := Config.getApiKeys w in
       let params := build_params w keys.1 keys.2 args in
       let* response := axios w (search_request params) in
       lift (interpret w response))
      (fun error => lift (handleError w error (js "検索"))).

(** Lines 312-339. *)
Definition handleAnalyzeWebpage (w : World) (url : jsstring) : M ToolResponse :=
  match URL_new w url with
  | None => ret (error_response INVALID_URL)
  | Some _ =>
      try_catch
        (let* content := fetchContent w url in ret (success w (Page content)))
        (fun error => lift (handleError w error (js "ウェブページの内容抽出")))
  end.

(** Line 355: the URLs the constructor rejects. *)
Definition invalidUrls (w : World) (urls : list jsstring) : list jsstring :=
  filter (fun url => URL_new w url = None) urls.

(** Lines 377-379. *)
Definition successfulUrls (results : WebpageAnalysisResponse) : list jsstring :=
  (filter (fun kv => has_error kv.2 = false) (map_to_list (own results))).*1.

(** Lines 344-402. *)
Definition handleBatchAnalyzeWebpages (w : World) (urls : list jsstring) : M ToolResponse :=
  if (5 <? length urls)%nat then ret (error_response TOO_MANY_URLS)
  else
    let invalid := invalidUrls w urls in
    if (0 <? length invalid)%nat then
      ret (error_response
             (js "以下のURLの形式が無効です: " ++ join (js ", ") invalid
                ++ js "\nすべてのURLはhttp://またはhttps://で始まる必要があります。\nInvalid URL format for: "
                ++ join (js ", ") invalid
                ++ js "\nAll URLs must start with http:// or https:// and be properly formatted."))
    else
      try_catch
        (let* results := batchFetchContent w urls in
         if (length (successfulUrls results) =? 0)%nat
         then ret (error_response NOTHING_EXTRACTED)
         else ret (success w (Batch results)))
        (fun error => lift (handleError w error (js "複数ウェブページの内容一括抽出"))).

(** The [options] argument of [search]. *)
Record SearchOptions : Type := {
  opt_date_restrict : option jsstring;
  opt_language : option jsstring;
  opt_country : option jsstring;
  opt_safe_search : option jsstring
}.

(** Lines 216-219, 227-230 and 238-241: an error response is thrown as an
    [Error] with its text, any other text goes through [JSON.parse]. *)
Definition unwrap (parse : jsstring -> Outcome JSValue) (result : ToolResponse) : M JSValue :=
  if isError result then throw (Err (text result)) else lift (parse (text result)).

(** Lines 202-220; [numResults] defaults to 5 when it is left out. *)
Definition search (w : World) (parse : jsstring -> Outcome JSValue) (query : jsstring)
    (numResults : option number) (options : option SearchOptions) : M JSValue :=
  let* result :=
    handleSearch w
      {| query := query;
         num_results := Some (default (Number.of_Z 5) numResults);
         date_restrict := options ≫= opt_date_restrict;
         language := options ≫= opt_language;
         country := options ≫= opt_country;
         safe_search := options ≫= opt_safe_search |} in
  unwrap parse result.

(** Lines 225-231. *)
Definition extractWebpage (w : World) (parse : jsstring -> Outcome JSValue) (url : jsstring)
    : M JSValue :=
  let* result := handleAnalyzeWebpage w url in unwrap parse result.

(** Lines 236-242. *)
Definition batchExtractWebpages (w : World) (parse : jsstring -> Outcome JSValue)
    (urls : list jsstring) : M JSValue :=
  let* result := handleBatchAnalyzeWebpages w urls in unwrap parse result.

(** [typeof v === 'object' && v !== null]. *)
Definition is_object (v : JSValue) : bool :=
  match v with JObj _ | JArr _ => true | _ => false end.

(** [k in v] for an object [v] and the keys [query], [url] and [urls],
    which no prototype supplies. *)
Definition has_key (k : jsstring) (v : JSValue) : bool :=
  match v with
  | JObj fields => bool_decide (is_Some (Value.field k fields))
  | _ => false
  end.

(** [typeof v === 'string' ? v : undefined] and the same for numbers. *)
Definition string_or_undefined (v : JSValue) : option jsstring :=
  match v with JStr s => Some s | _ => None end.
Definition number_or_undefined (v : JSValue) : option number :=
  match v with JNum x => Some x | _ => None end.

(** [v === 'literal']. *)
Definition is_string (v : JSValue) (literal : jsstring) : bool :=
  match v with JStr s => bool_decide (s = literal) | _ => false end.

(** Lines 151-187: the handler of tool calls, on [request.params.name] and
    [request.params.arguments]. *)
Definition callTool (w : World) (name arguments : JSValue) : M ToolResponse :=
  if is_string name (js "google_search") then
    if is_object arguments && has_key (js "query") arguments then
      let arg k := Value.get_opt arguments (Named (js k)) in
      handleSearch w
        {| query := to_string w (arg "query"%string);
           num_results := number_or_undefined (arg "num_results"%string);
           date_restrict := string_or_undefined (arg "date_restrict"%string);
           language := string_or_undefined (arg "language"%string);
           country := string_or_undefined (arg "country"%string);
           safe_search := string_or_undefined (arg "safe_search"%string) |}
    else throw (Err (js "Invalid arguments for google_search tool"))
  else if is_string name (js "extract_webpage_content") then
    if is_object arguments && has_key (js "url") arguments then
      handleAnalyzeWebpage w (to_string w (Value.get_opt arguments (Named (js "url"))))
    else throw (Err (js "Invalid arguments for extract_webpage_content tool"))
  else if is_string name (js "extract_multiple_webpages") then
    if is_object arguments && has_key (js "urls") arguments then
      match Value.get_opt arguments (Named (js "urls")) with
      | JArr elems => handleBatchAnalyzeWebpages w (map (to_string w) elems)
      | _ => throw (Err (js "Invalid arguments for extract_multiple_webpages tool"))
      end
    else throw (Err (js "Invalid arguments for extract_multiple_webpages tool"))
  else throw (Err (js "Unknown tool: " ++ to_string w name)).

End GoogleSearchService.

(** ** The documented meaning of the statistics *)

Module Spec.

(** The non-empty white-space-delimited tokens of a text: its maximal
    runs of units that are not white space.  [cur] is the run under
    construction, reversed. *)
Fixpoint tokens_from (cur : jsstring) (s : jsstring) : list jsstring :=
  match s with
  | [] => if truthy cur then [rev cur] else []
  | c :: s' =>
      if is_whitespace c
      then (if truthy cur then rev cur :: tokens_from [] s' else tokens_from [] s')
      else tokens_from (c :: cur) s'
  end.

Definition tokens (s : jsstring) : list jsstring := tokens_from [] s.

(** [p] is the prefix of [s] that is cut at [n] units. *)
Definition prefix_at (n : nat) (p s : jsstring) : Prop :=
  (exists rest, s = p ++ rest) /\ length p = Nat.min n (length s).

End Spec.

(** ** Concrete environments for the examples *)

Module Examples.
Import Cheerio.

Definition is_alpha (c : N) : bool :=
  (65 <=? c) && (c <=? 90) || (97 <=? c) && (c <=? 122).

Definition is_scheme_unit (c : N) : bool :=
  is_alpha c || is_digit c || (c =? 43) || (c =? 45) || (c =? 46).

(** Splits [scheme:rest] at the first colon when only scheme units
    precede it. *)
Fixpoint split_scheme (s : jsstring) : option (jsstring * jsstring) :=
  match s with
  | [] => None
  | c :: s' =>
      if c =? 58 then Some ([], s')
      else if is_scheme_unit c then
        match split_scheme s' with
        | Some (scheme, rest) => Some (c :: scheme, rest)
        | None => None
        end
      else None
  end.

Definition is_slash (c : N) : bool := (c =? 47) || (c =? 92).
Definition ends_host (c : N) : bool := is_slash c || (c =? 63) || (c =? 35) || (c =? 58).

Fixpoint skip_slashes (s : jsstring) : jsstring :=
  match s with
  | c :: s' => if is_slash c then skip_slashes s' else s
  | [] => []
  end.

Fixpoint host_part (s : jsstring) : jsstring :=
  match s with
  | c :: s' => if ends_host c then [] else c :: host_part s'
  | [] => []
  end.

Definition SPECIAL_SCHEMES : list jsstring :=
  [ js "http"; js "https"; js "ftp"; js "ws"; js "wss" ].

(** The URL constructor on plain ASCII input without credentials, port
    checks or escapes: an absolute URL needs a scheme (a letter, then
    letters, digits, [+], [-], [.], up to a colon), and the schemes
    http, https, ftp, ws and wss need a host as well.  A string without
    a scheme is rejected, whatever follows.  It serves the examples
    below, on inputs of that plain shape only: on a leading space, a space
    in the host, an unclosed bracket or a bad port the constructor of the
    runtime decides otherwise. *)
Definition URL_basic (s : jsstring) : option URL :=
  match s with
  | c :: _ =>
      if is_alpha c then
        match split_scheme s with
        | Some (scheme, rest) =>
            let scheme := ascii_lower scheme in
            if bool_decide (scheme ∈ SPECIAL_SCHEMES) then
              let host := ascii_lower (host_part (skip_slashes rest)) in
              if truthy host
              then Some {| protocol := scheme ++ js ":"; hostname := host |}
              else None
            else
              Some {| protocol := scheme ++ js ":";
                      hostname := if startsWith (js "//") rest
                                  then host_part (skip_slashes rest) else [] |}
        | None => None
        end
      else None
  | [] => None
  end.

Definition ascii_upper (s : jsstring) : jsstring :=
  map (fun c => if (97 <=? c) && (c <=? 122) then c - 32 else c) s.

(** ToString on the strings and the small non-negative integers the
    examples print. *)
Definition to_text (v : JSValue) : jsstring :=
  match v with
  | JStr s => s
  | JNum (Finite m 0) => Value.index_name (Z.to_nat m)
  | JUndefined => js "undefined"
  | JNull => js "null"
  | JBool true => js "true"
  | JBool false => js "false"
  | _ => js "[object Object]"
  end.

(** A stand-in for the serialiser: it tells the payloads apart by their
    size only. *)
Definition to_json (p : Payload) : jsstring :=
  match p with
  | SearchResults results => js "results:" ++ Value.index_name (length results)
  | Page content => js "page:" ++ url content
  | Batch results => js "batch:" ++ Value.index_name (size (own results))
  end.

(** An environment: the mode, the network and the parser vary, the
    built-ins are the ones above, and the callbacks of a batch resume in
    the order they started. *)
Definition world (env : option jsstring)
    (net : nat -> Request -> Outcome HttpResponse)
    (parse : JSValue -> Outcome Document) : World :=
  {| NODE_ENV := env;
     GOOGLE_API_KEY := Some (js "k");
     GOOGLE_SEARCH_ENGINE_ID := Some (js "e");
     URL_new := URL_basic;
     URL_error := fun _ => js "Invalid URL";
     axios_get := net;
     cheerio_load := parse;
     toUpperCase := ascii_upper;
     ToString := to_text;
     ToNumber := fun v => match v with JNum x => x | _ => NaN end;
     JSON_stringify := to_json;
     TypeError_message := fun _ _ => js "Cannot read properties";
     settle_order := [] |}.

(** The parsed form of [<h1>A</h1><p>B C</p>]: the parser supplies the
    [html], [head] and [body] elements. *)
Definition doc_AB : Document :=
  [ Elem (js "html") []
      [ Elem (js "head") [] [];
        Elem (js "body") []
          [ Elem (js "h1") [] [TextNode (js "A")];
            Elem (js "p") [] [TextNode (js "B C")] ] ] ].

Definition html_AB : JSValue := JStr (js "<h1>A</h1><p>B C</p>").

(** The parsed form of [<p>Hi<template><nav>menu</nav></template></p>]:
    the [nav] element is content of the [template]. *)
Definition doc_template : Document :=
  [ Elem (js "html") []
      [ Elem (js "head") [] [];
        Elem (js "body") []
          [ Elem (js "p") []
              [ TextNode (js "Hi");
                Elem (js "template") []
                  [ Fragment [ Elem (js "nav") [] [TextNode (js "menu")] ] ] ] ] ] ].

Definition ok (body : JSValue) : Outcome HttpResponse :=
  Return {| status := Number.of_Z 200; data := body |}.

(** Every request is answered 200 with the page above. *)
Definition serving_AB : World :=
  world None (fun _ _ => ok html_AB) (fun _ => Return doc_AB).

(** No server answers: every request fails without a response. *)
Definition offline : World :=
  world None (fun _ _ => Throw (AxiosErr (js "connect ECONNREFUSED") None))
        (fun _ => Return []).

(** The mode the test scripts set. *)
Definition testing : World :=
  world (Some (js "test")) (fun _ _ => ok html_AB) (fun _ => Return doc_AB).

(** The search API answers with the given body. *)
Definition answering (body : JSValue) : World :=
  world None (fun _ _ => ok body) (fun _ => Return []).

(** Inputs. *)
Definition example_com : jsstring := js "https://example.com".
Definition ftp_file : jsstring := js "ftp://example.com/file.txt".
Definition two_urls : list jsstring :=
  [ js "https://example.com"; js "https://example.org" ].
Definition six_urls : list jsstring :=
  [ js "https://example.com"; js "https://example.org"; js "https://example.net";
    js "https://example.edu"; js "https://example.io"; js "https://example.dev" ].
Definition news : GoogleSearchService.SearchArgs :=
  {| GoogleSearchService.query := js "news";
     GoogleSearchService.num_results := None;
     GoogleSearchService.date_restrict := Some (js "m3");
     GoogleSearchService.language := Some (js "ja");
     GoogleSearchService.country := Some (js "us");
     GoogleSearchService.safe_search := None |}.
Definition zero_count : GoogleSearchService.SearchArgs :=
  {| GoogleSearchService.query := js "news";
     GoogleSearchService.num_results := Some (Number.of_Z 0);
     GoogleSearchService.date_restrict := None;
     GoogleSearchService.language := None;
     GoogleSearchService.country := None;
     GoogleSearchService.safe_search := None |}.
Definition blank : GoogleSearchService.SearchArgs :=
  {| GoogleSearchService.query := [32; 9; 12288];
     GoogleSearchService.num_results := None;
     GoogleSearchService.date_restrict := None;
     GoogleSearchService.language := None;
     GoogleSearchService.country := None;
     GoogleSearchService.safe_search := None |}.
Definition empty_items : JSValue := JObj [(js "items", JArr [])].
Definition no_items : JSValue := JObj [(js "kind", JStr (js "customsearch#search"))].
Definition text_items : JSValue := JObj [(js "items", JStr (js "none"))].

(** Further inputs. *)
Definition mixed_urls : list jsstring :=
  [ js "https://example.com"; js "invalid-url"; js "https://example.org" ].
Definition eleven : GoogleSearchService.SearchArgs :=
  {| GoogleSearchService.query := js "news";
     GoogleSearchService.num_results := Some (Number.of_Z 11);
     GoogleSearchService.date_restrict := None;
     GoogleSearchService.language := None;
     GoogleSearchService.country := None;
     GoogleSearchService.safe_search := None |}.
Definition two_items : JSValue :=
  JObj [(js "items",
         JArr [ JObj [(js "title", JStr (js "First")); (js "link", JStr (js "https://a.example"))];
                JObj [(js "title", JStr (js "Second"));
                      (js "displayLink", JStr (js "b.example"))] ])].
Definition loose_call : list (jsstring * JSValue) :=
  [ (js "query", JStr (js "news")); (js "num_results", JStr (js "3")) ].

End Examples.

(** * Properties *)

Import ContentFetcher GoogleSearchService.

(** ** Strings *)

Section StringFacts.

Lemma truthy_rev (s : jsstring) : truthy (rev s) = truthy s.
Proof.
  destruct s as [|c s]; [reflexivity|]. simpl.
  destruct (rev s ++ [c]) eqn:E; [|reflexivity].
  apply app_eq_nil in E as [_ E]. discriminate.
Qed.

Lemma trimStart_whitespace (s : jsstring) :
  Forall (fun c => is_whitespace c = true) s -> trimStart s = [].
Proof.
  induction 1 as [|c s Hc _ IH]; [reflexivity|].
  simpl. rewrite Hc. exact IH.
Qed.

Lemma trim_whitespace (s : jsstring) :
  Forall (fun c => is_whitespace c = true) s -> trim s = [].
Proof.
  intros H. unfold trim. rewrite (trimStart_whitespace s H). reflexivity.
Qed.

Lemma split_from_tokens (s : jsstring) :
  forall (in_ws : bool) (cur : jsstring),
    (in_ws = true -> cur = []) ->
    filter (fun piece => truthy piece = true) (split_from in_ws cur s)
    = Spec.tokens_from cur s.
Proof.
  induction s as [|c s IH]; intros in_ws cur Hcur; simpl.
  - rewrite filter_cons, filter_nil, truthy_rev.
    destruct (truthy cur); case_decide; congruence.
  - destruct (is_whitespace c).
    + destruct in_ws.
      * rewrite (Hcur eq_refl). simpl. apply IH. reflexivity.
      * rewrite filter_cons, truthy_rev, (IH true []) by reflexivity.
        destruct (truthy cur); case_decide; congruence.
    + apply IH. discriminate.
Qed.

Lemma split_ws_tokens (s : jsstring) :
  filter (fun piece => truthy piece = true) (split_ws s) = Spec.tokens s.
Proof. apply split_from_tokens. discriminate. Qed.

Lemma substring0_prefix (n : nat) (s : jsstring) :
  Spec.prefix_at n (substring0 n s) s.
Proof.
  split.
  - exists (drop n s). unfold substring0. symmetry. apply take_drop.
  - unfold substring0. rewrite length_take. reflexivity.
Qed.

(** Tokens are what the name says: no token is empty or holds white space, and
    together they are the units of the text that are not white space. *)
Lemma tokens_from_sound (s : jsstring) :
  forall cur,
    Forall (fun c => is_whitespace c = false) cur ->
    Forall (fun tk => tk <> [] /\ Forall (fun c => is_whitespace c = false) tk)
           (Spec.tokens_from cur s).
Proof.
  induction s as [|c s IH]; intros cur Hcur; simpl.
  - destruct cur as [|d cur]; simpl; [constructor|].
    constructor; [|constructor]. split.
    + intros E. apply app_eq_nil in E as [_ E]. discriminate.
    + change (rev cur ++ [d]) with (rev (d :: cur)).
      apply Forall_rev. exact Hcur.
  - destruct (is_whitespace c) eqn:Hc.
    + destruct cur as [|d cur]; simpl.
      * apply IH. constructor.
      * constructor; [|apply IH; constructor]. split.
        -- intros E. apply app_eq_nil in E as [_ E]. discriminate.
        -- change (rev cur ++ [d]) with (rev (d :: cur)).
           apply Forall_rev. exact Hcur.
    + apply IH. constructor; assumption.
Qed.

Lemma tokens_from_concat (s : jsstring) :
  forall cur,
    concat (Spec.tokens_from cur s)
    = rev cur ++ filter (fun c => is_whitespace c = false) s.
Proof.
  induction s as [|c s IH]; intros cur; simpl.
  - rewrite filter_nil. destruct cur; simpl; rewrite ?app_nil_r; reflexivity.
  - rewrite filter_cons. destruct (is_whitespace c) eqn:Hc.
    + case_decide; [congruence|].
      destruct cur as [|d cur]; simpl; rewrite IH; reflexivity.
    + case_decide; [|congruence].
      rewrite IH. simpl. rewrite <- app_assoc. reflexivity.
Qed.

Lemma tokens_sound (s : jsstring) :
  Forall (fun tk => tk <> [] /\ Forall (fun c => is_whitespace c = false) tk)
         (Spec.tokens s).
Proof. apply tokens_from_sound. constructor. Qed.

Lemma tokens_concat (s : jsstring) :
  concat (Spec.tokens s) = filter (fun c => is_whitespace c = false) s.
Proof. apply (tokens_from_concat s []). Qed.

End StringFacts.

Example js_literal_newline : js "a\nb" = [97; 10; 98].
Proof. reflexivity. Qed.

Example js_literal_kana : js "検索" = [26908; 32034].
Proof. reflexivity. Qed.

Example split_ws_example :
  split_ws (js " a  b\n") = [[]; js "a"; js "b"; []].
Proof. reflexivity. Qed.

Example index_name_12 : Value.index_name 12 = js "12".
Proof. reflexivity. Qed.

(** ** The collecting loop of the batch *)

Section BatchFacts.
Context (w : World).

Lemma completion_order_complete (preferred : list nat) (n i : nat) :
  (i < n)%nat -> i ∈ completion_order preferred n.
Proof.
  intros Hi. unfold completion_order.
  set (first := filter (fun i => (i < n)%nat) (remove_dups preferred)).
  apply elem_of_app.
  destruct (decide (i ∈ first)) as [Hin|Hout]; [left; exact Hin|right].
  apply list_elem_of_filter. split; [exact Hout|].
  apply elem_of_seq. lia.
Qed.

Lemma attempt_settles (url : jsstring) (t : Trace) :
  exists entry t', attempt w url t = (Return entry, t').
Proof.
  unfold attempt, try_catch, bind, ret.
  destruct (fetchContent w url t) as [[content|error] t']; [eauto|].
  destruct error; eauto.
Qed.

Lemma mapM_attempt_settles (urls : list jsstring) :
  forall t, exists settled t',
    mapM (attempt w) urls t = (Return settled, t') /\ length settled = length urls.
Proof.
  induction urls as [|url urls IH]; intros t; simpl.
  - exists [], t. split; reflexivity.
  - unfold bind at 1.
    destruct (attempt_settles url t) as (entry & t1 & ->).
    unfold bind at 1.
    destruct (IH t1) as (settled & t2 & -> & Hlen).
    exists (entry :: settled), t2. split; [reflexivity|]. simpl. congruence.
Qed.

Lemma assign_object_lookup (results : WebpageAnalysisResponse) (k u : jsstring)
    (v : BatchEntry) :
  own (Obj.assign_object results k v) !! u
  = if decide (k <> Obj.PROTO /\ k = u) then Some v else own results !! u.
Proof.
  unfold Obj.assign_object.
  destruct (decide (k = Obj.PROTO)) as [->|Hk]; cbn [own].
  - case_decide as H; [destruct H as [H _]; congruence|reflexivity].
  - destruct (decide (k = u)) as [->|Hne].
    + rewrite lookup_insert_eq. case_decide as H; [reflexivity|].
      exfalso. apply H. split; [exact Hk|reflexivity].
    + rewrite lookup_insert_ne by exact Hne.
      case_decide as H; [destruct H as [_ H]; contradiction|reflexivity].
Qed.

Lemma collect_origin (urls : list jsstring) (settled : list BatchEntry) (order : list nat) :
  forall (acc : WebpageAnalysisResponse) (u : jsstring) (e : BatchEntry),
    own (fold_left (assign urls settled) order acc) !! u = Some e ->
    own acc !! u = Some e
    \/ exists i, i ∈ order /\ urls !! i = Some u /\ settled !! i = Some e.
Proof.
  induction order as [|i order IH]; intros acc u e H; simpl in H; [left; exact H|].
  apply IH in H as [H|(j & Hj & Hu & He)].
  - unfold assign in H.
    destruct (urls !! i) as [url|] eqn:Hurl; [|left; exact H].
    destruct (settled !! i) as [entry|] eqn:Hentry; [|left; exact H].
    rewrite assign_object_lookup in H.
    case_decide as Hk; [|left; exact H].
    destruct Hk as [_ ->]. inversion H; subst.
    right. exists i. split; [apply elem_of_cons; left; reflexivity|]. split; assumption.
  - right. exists j. split; [apply elem_of_cons; right; exact Hj|]. split; assumption.
Qed.

Lemma collect_keeps (urls : list jsstring) (settled : list BatchEntry) (order : list nat) :
  forall (acc : WebpageAnalysisResponse) (u : jsstring),
    is_Some (own acc !! u) ->
    is_Some (own (fold_left (assign urls settled) order acc) !! u).
Proof.
  induction order as [|i order IH]; intros acc u H; simpl; [exact H|].
  apply IH. unfold assign.
  destruct (urls !! i) as [url|]; [|exact H].
  destruct (settled !! i) as [entry|]; [|exact H].
  rewrite assign_object_lookup. case_decide; [eauto|exact H].
Qed.

Lemma collect_assigned (urls : list jsstring) (settled : list BatchEntry) (order : list nat) :
  forall (acc : WebpageAnalysisResponse) (i : nat) (u : jsstring) (e : BatchEntry),
    i ∈ order -> urls !! i = Some u -> settled !! i = Some e -> u <> Obj.PROTO ->
    is_Some (own (fold_left (assign urls settled) order acc) !! u).
Proof.
  induction order as [|j order IH]; intros acc i u e Hi Hu He Hne; simpl.
  - apply elem_of_nil in Hi. contradiction.
  - apply elem_of_cons in Hi as [<-|Hi]; [|eapply IH; eassumption].
    apply collect_keeps. unfold assign. rewrite Hu, He.
    rewrite assign_object_lookup. case_decide as Hk; [eauto|].
    exfalso. apply Hk. split; [exact Hne|reflexivity].
Qed.

Lemma collect_no_proto (urls : list jsstring) (settled : list BatchEntry) (order : list nat) :
  forall acc : WebpageAnalysisResponse,
    own acc !! Obj.PROTO = None ->
    own (fold_left (assign urls settled) order acc) !! Obj.PROTO = None.
Proof.
  induction order as [|i order IH]; intros acc H; simpl; [exact H|].
  apply IH. unfold assign.
  destruct (urls !! i) as [url|]; [|exact H].
  destruct (settled !! i) as [entry|]; [|exact H].
  rewrite assign_object_lookup. case_decide as Hk; [|exact H].
  destruct Hk as [Hk ->]. contradiction.
Qed.

(** The keys of the collected object: the URLs, but never [__proto__]. *)
Lemma collect_keys (order : list nat) (urls : list jsstring) (settled : list BatchEntry) :
  length settled = length urls ->
  (forall i, (i < length urls)%nat -> i ∈ order) ->
  Obj.keys (collect order urls settled)
  = list_to_set (filter (fun u => u <> Obj.PROTO) urls).
Proof.
  intros Hlen Hall. apply set_eq. intros u.
  unfold Obj.keys. rewrite elem_of_dom, elem_of_list_to_set, list_elem_of_filter.
  unfold collect. split.
  - intros [e He]. split.
    + intros ->. rewrite collect_no_proto in He; [discriminate|reflexivity].
    + apply collect_origin in He as [He|(i & _ & Hu & _)].
      * simpl in He. rewrite lookup_empty in He. discriminate.
      * eapply list_elem_of_lookup_2. exact Hu.
  - intros [Hne Hin].
    apply list_elem_of_lookup_1 in Hin as [i Hi].
    assert (Hlt : (i < length urls)%nat) by (eapply lookup_lt_Some; exact Hi).
    destruct (lookup_lt_is_Some_2 settled i) as [e He]; [lia|].
    eapply collect_assigned; eauto.
Qed.

End BatchFacts.

(** ** Extraction of one page *)

Section FetchFacts.
Context (w : World).

(** Outside the test mode a string the URL constructor rejects is
    refused before anything is requested. *)
Lemma fetchContent_invalid (url : jsstring) (t : Trace) :
  test_mode w = false -> URL_new w url = None ->
  fetchContent w url t
  = (Throw (Err (js "コンテンツ抽出エラー: " ++ INVALID_URL_FORMAT ++ url)), t).
Proof.
  intros Hmode Hurl. unfold fetchContent. rewrite Hmode.
  unfold try_catch, bind. rewrite Hurl. reflexivity.
Qed.

(** Outside the test mode a string the URL constructor accepts is
    requested, whatever its scheme. *)
Lemma fetchContent_valid (url : jsstring) (u : URL) (t : Trace) :
  test_mode w = false -> URL_new w url = Some u ->
  fetchContent w url t
  = (match axios_get w (requests t) (page_request url) with
     | Return response =>
         match cheerio_load w (data response) with
         | Return doc => Return (extract url doc)
         | Throw error => Throw (rethrow w url error)
         end
     | Throw error => Throw (rethrow w url error)
     end, t ++ [AxiosGet (page_request url)]).
Proof.
  intros Hmode Hurl. unfold fetchContent. rewrite Hmode.
  unfold try_catch, bind, ret, axios, lift, throw. rewrite Hurl.
  destruct (axios_get w (requests t) (page_request url)) as [response|error];
    [|reflexivity].
  destruct (cheerio_load w (data response)) as [doc|error]; reflexivity.
Qed.

Lemma fetchContent_extracts (url : jsstring) (t t' : Trace) (c : WebpageContent) :
  test_mode w = false ->
  fetchContent w url t = (Return c, t') ->
  exists doc, c = extract url doc.
Proof.
  intros Hmode H.
  destruct (URL_new w url) as [u|] eqn:Hurl.
  - rewrite (fetchContent_valid url u t Hmode Hurl) in H.
    destruct (axios_get w (requests t) (page_request url)) as [response|error];
      [|discriminate].
    destruct (cheerio_load w (data response)) as [doc|error]; [|discriminate].
    exists doc. congruence.
  - rewrite (fetchContent_invalid url t Hmode Hurl) in H. discriminate.
Qed.

Lemma extract_stats (url : jsstring) (doc : Document) :
  let c := extract url doc in
  word_count c = length (Spec.tokens (markdown_content c))
  /\ approximate_chars c = length (markdown_content c)
  /\ Spec.prefix_at 500 (first_500_chars c) (markdown_content c).
Proof.
  cbn zeta. unfold extract;
    cbn [word_count markdown_content approximate_chars first_500_chars].
  rewrite split_ws_tokens. split; [reflexivity|]. split; [reflexivity|].
  apply substring0_prefix.
Qed.

(** The router refuses what the URL constructor rejects, in every mode,
    and requests nothing. *)
Lemma handleAnalyzeWebpage_invalid (url : jsstring) (t : Trace) :
  URL_new w url = None ->
  handleAnalyzeWebpage w url t = (Return (error_response INVALID_URL), t).
Proof. intros H. unfold handleAnalyzeWebpage. rewrite H. reflexivity. Qed.

End FetchFacts.

(** C6.  Outside the test mode, every page content that [fetchContent]
    returns has [word_count] equal to the number of non-empty
    white-space-delimited tokens of [markdown_content], [approximate_chars]
    equal to its length, and [first_500_chars] equal to its prefix of
    length [min 500 length], nothing added. *)
Theorem fetchContent_stats_and_preview (w : World) (url : jsstring) (t t' : Trace)
    (c : WebpageContent) :
  test_mode w = false ->
  fetchContent w url t = (Return c, t') ->
  word_count c = length (Spec.tokens (markdown_content c))
  /\ approximate_chars c = length (markdown_content c)
  /\ Spec.prefix_at 500 (first_500_chars c) (markdown_content c).
Proof.
  intros Hmode H.
  destruct (fetchContent_extracts w url t t' c Hmode H) as [doc ->].
  apply extract_stats.
Qed.

Lemma fetchContent_stats_and_preview_witness :
  test_mode Examples.serving_AB = false
  /\ fetchContent Examples.serving_AB Examples.example_com []
     = (Return (extract Examples.example_com Examples.doc_AB),
        [AxiosGet (page_request Examples.example_com)])
  /\ word_count (extract Examples.example_com Examples.doc_AB)
     = length (Spec.tokens (markdown_content (extract Examples.example_com Examples.doc_AB)))
  /\ approximate_chars (extract Examples.example_com Examples.doc_AB)
     = length (markdown_content (extract Examples.example_com Examples.doc_AB))
  /\ Spec.prefix_at 500 (first_500_chars (extract Examples.example_com Examples.doc_AB))
       (markdown_content (extract Examples.example_com Examples.doc_AB)).
Proof.
  split; [reflexivity|]. split; [reflexivity|].
  apply (fetchContent_stats_and_preview Examples.serving_AB Examples.example_com
           [] [AxiosGet (page_request Examples.example_com)]);
    reflexivity.
Defined.

(** The mock pages of the test mode carry fixed statistics instead. *)
Example mock_statistics_are_fixed :
  match fetchContent Examples.testing Examples.example_com [] with
  | (Return c, t') =>
      t' = []
      /\ word_count c = 50%nat
      /\ length (Spec.tokens (markdown_content c)) = 39%nat
      /\ approximate_chars c = 300%nat
      /\ length (markdown_content c) = 249%nat
  | (Throw _, _) => False
  end.
Proof. vm_compute. repeat split. Qed.

(** C2, as the specification states it, fails: for the page
    [<h1>A</h1><p>B C</p>] the rendered body is ["# A\n\nB C\n\n"] but the
    word count is not 3. *)
Lemma extraction_AB_counts_three_words_refuted :
  ~ (forall c t',
       fetchContent Examples.serving_AB Examples.example_com [] = (Return c, t') ->
       markdown_content c = js "# A\n\nB C\n\n" /\ word_count c = 3%nat).
Proof.
  intros H.
  destruct (H (extract Examples.example_com Examples.doc_AB)
              [AxiosGet (page_request Examples.example_com)] eq_refl) as [_ Hcount].
  vm_compute in Hcount. discriminate.
Qed.

(** C2, amended.  For the URL ["https://example.com"] and a document whose
    body holds exactly [<h1>A</h1><p>B C</p>], with no [main] or [article]
    region, the extraction yields [markdown_content = "# A\n\nB C\n\n"] and
    [word_count = 4]: the heading marker is a token of the rendered text. *)
Theorem extraction_AB_body_and_word_count (w : World) (t : Trace) (response : HttpResponse) :
  test_mode w = false ->
  URL_new w Examples.example_com <> None ->
  axios_get w (requests t) (page_request Examples.example_com) = Return response ->
  cheerio_load w (data response) = Return Examples.doc_AB ->
  exists c,
    fetchContent w Examples.example_com t
    = (Return c, t ++ [AxiosGet (page_request Examples.example_com)])
    /\ markdown_content c = js "# A\n\nB C\n\n"
    /\ word_count c = 4%nat.
Proof.
  intros Hmode Hurl Hres Hdoc.
  destruct (URL_new w Examples.example_com) as [u|] eqn:Hu; [|contradiction].
  rewrite (fetchContent_valid w Examples.example_com u t Hmode Hu), Hres, Hdoc.
  eexists. split; [reflexivity|]. split; reflexivity.
Qed.

Lemma extraction_AB_body_and_word_count_witness :
  test_mode Examples.serving_AB = false
  /\ URL_new Examples.serving_AB Examples.example_com <> None
  /\ exists c,
       fetchContent Examples.serving_AB Examples.example_com []
       = (Return c, [AxiosGet (page_request Examples.example_com)])
       /\ markdown_content c = js "# A\n\nB C\n\n"
       /\ word_count c = 4%nat.
Proof.
  split; [reflexivity|]. split; [discriminate|].
  apply (extraction_AB_body_and_word_count Examples.serving_AB []
           {| status := Number.of_Z 200; data := Examples.html_AB |});
    [reflexivity|discriminate|reflexivity|reflexivity].
Defined.

Lemma trace_grows (t extra : Trace) : extra <> [] -> t ++ extra <> t.
Proof.
  intros Hne Heq. apply Hne.
  apply (app_inv_head t). rewrite app_nil_r. exact Heq.
Qed.

(** Whatever [fetchContent] throws, the router reports it under its own
    heading, never as an invalid URL. *)
Lemma extraction_failure_text (w : World) (message : jsstring) :
  handleError w (Err message) (js "ウェブページの内容抽出")
  <> Return (error_response INVALID_URL).
Proof.
  intros H.
  apply (f_equal (fun o => match o with
                           | Return r => head (text r)
                           | Throw _ => None
                           end)) in H.
  vm_compute in H. discriminate.
Qed.

(** C4 at a URL with another scheme.  Outside the test mode, every string
    the URL constructor accepts, such as ["ftp://example.com/file.txt"], is
    handed to [axios.get] by [fetchContent] and by the router's handler,
    and the handler's answer is not the invalid-URL error: the scheme is
    never looked at. *)
Theorem accepted_url_is_requested (w : World) (url : jsstring) (u : URL) (t : Trace) :
  test_mode w = false ->
  URL_new w url = Some u ->
  (exists outcome,
     fetchContent w url t = (outcome, t ++ [AxiosGet (page_request url)]))
  /\ (exists outcome,
        handleAnalyzeWebpage w url t = (outcome, t ++ [AxiosGet (page_request url)])
        /\ outcome <> Return (error_response INVALID_URL)).
Proof.
  intros Hmode Hurl. split.
  - rewrite (fetchContent_valid w url u t Hmode Hurl). eexists. reflexivity.
  - unfold handleAnalyzeWebpage. rewrite Hurl. unfold try_catch, bind.
    rewrite (fetchContent_valid w url u t Hmode Hurl).
    destruct (axios_get w (requests t) (page_request url)) as [response|e].
    + destruct (cheerio_load w (data response)) as [doc|e].
      * eexists. split; [reflexivity|]. unfold ret, success, error_response. congruence.
      * unfold lift. eexists. split; [reflexivity|].
        destruct e as [m|m [r|]|v]; apply extraction_failure_text.
    + unfold lift. eexists. split; [reflexivity|].
      destruct e as [m|m [r|]|v]; apply extraction_failure_text.
Qed.

Lemma accepted_url_is_requested_witness :
  test_mode Examples.offline = false
  /\ URL_new Examples.offline Examples.ftp_file
     = Some {| protocol := js "ftp:"; hostname := js "example.com" |}
  /\ (exists outcome,
        fetchContent Examples.offline Examples.ftp_file []
        = (outcome, [AxiosGet (page_request Examples.ftp_file)]))
  /\ (exists outcome,
        handleAnalyzeWebpage Examples.offline Examples.ftp_file []
        = (outcome, [AxiosGet (page_request Examples.ftp_file)])
        /\ outcome <> Return (error_response INVALID_URL)).
Proof.
  split; [reflexivity|]. split; [reflexivity|].
  apply (accepted_url_is_requested Examples.offline Examples.ftp_file
           {| protocol := js "ftp:"; hostname := js "example.com" |} []);
    reflexivity.
Defined.

(** What the two entry points answer for the ftp URL and for a string
    that is no URL at all. *)
Example ftp_url_fetch :
  fetchContent Examples.offline Examples.ftp_file []
  = (Throw (Err (js "コンテンツ抽出エラー: connect ECONNREFUSED")),
     [AxiosGet (page_request Examples.ftp_file)]).
Proof. vm_compute. reflexivity. Qed.

Example ftp_url_router :
  handleAnalyzeWebpage Examples.offline Examples.ftp_file []
  = (Return (error_response
               (js "ウェブページの内容抽出に失敗しました: コンテンツ抽出エラー: connect ECONNREFUSED\nウェブページの内容抽出 failed: コンテンツ抽出エラー: connect ECONNREFUSED")),
     [AxiosGet (page_request Examples.ftp_file)]).
Proof. vm_compute. reflexivity. Qed.

Example malformed_url_fetch :
  fetchContent Examples.offline (js "invalid-url") []
  = (Throw (Err (js "コンテンツ抽出エラー: 無効なURL形式: invalid-url")), []).
Proof. vm_compute. reflexivity. Qed.

Example malformed_url_router :
  handleAnalyzeWebpage Examples.offline (js "invalid-url") []
  = (Return (error_response INVALID_URL), []).
Proof. vm_compute. reflexivity. Qed.

(** ** Extraction of a batch *)

Section BatchResults.
Context (w : World).

(** Outside the test mode a batch within the limit settles every
    callback and collects what they produced. *)
Lemma batchFetchContent_collects (urls : list jsstring) (t : Trace) :
  test_mode w = false -> (length urls <= 5)%nat ->
  exists settled t',
    mapM (attempt w) urls t = (Return settled, t')
    /\ length settled = length urls
    /\ batchFetchContent w urls t
       = (Return (collect (completion_order (settle_order w) (length urls)) urls settled),
          t').
Proof.
  intros Hmode Hlen.
  destruct (mapM_attempt_settles w urls t) as (settled & t' & Hmap & Hsize).
  exists settled, t'. split; [exact Hmap|]. split; [exact Hsize|].
  unfold batchFetchContent. rewrite Hmode.
  destruct (Nat.ltb_spec 5 (length urls)) as [H|_]; [lia|].
  unfold bind. rewrite Hmap. reflexivity.
Qed.

(** The keys of the result are the requested URLs other than
    [__proto__]. *)
Lemma batchFetchContent_keys (urls : list jsstring) (t : Trace) :
  test_mode w = false -> (length urls <= 5)%nat ->
  exists results t',
    batchFetchContent w urls t = (Return results, t')
    /\ Obj.keys results = list_to_set (filter (fun u => u <> Obj.PROTO) urls).
Proof.
  intros Hmode Hlen.
  destruct (batchFetchContent_collects urls t Hmode Hlen)
    as (settled & t' & _ & Hsize & Hbatch).
  eexists _, t'. split; [exact Hbatch|].
  apply collect_keys; [exact Hsize|].
  intros i Hi. apply completion_order_complete. exact Hi.
Qed.

Lemma filter_without (urls : list jsstring) :
  Obj.PROTO ∉ urls -> filter (fun u => u <> Obj.PROTO) urls = urls.
Proof.
  induction urls as [|u urls IH]; intros H; [reflexivity|].
  rewrite filter_cons. apply not_elem_of_cons in H as [Hne Hrest].
  case_decide as Hd; [rewrite IH by exact Hrest; reflexivity|].
  congruence.
Qed.

(** For URLs other than [__proto__] the key set is the set of the URLs. *)
Lemma batchFetchContent_keys_exact (urls : list jsstring) (t : Trace) :
  test_mode w = false -> (length urls <= 5)%nat -> Obj.PROTO ∉ urls ->
  exists results t',
    batchFetchContent w urls t = (Return results, t')
    /\ Obj.keys results = list_to_set urls.
Proof.
  intros Hmode Hlen Hproto.
  destruct (batchFetchContent_keys urls t Hmode Hlen) as (results & t' & H & Hkeys).
  exists results, t'. split; [exact H|].
  rewrite Hkeys, (filter_without urls Hproto). reflexivity.
Qed.

End BatchResults.


(** C1 at the key [__proto__].  Outside the test mode the batch for the
    one-element list ["__proto__"] returns an object without any key: the
    assignment [results["__proto__"] = ...] replaces the prototype of
    [results] instead of adding a property, so the key set is not the set
    of the input URLs. *)
Theorem batchFetchContent_loses_proto_key (w : World) (t : Trace) :
  test_mode w = false ->
  exists results t',
    batchFetchContent w [Obj.PROTO] t = (Return results, t')
    /\ Obj.keys results = ∅
    /\ Obj.keys results <> list_to_set [Obj.PROTO].
Proof.
  intros Hmode.
  destruct (batchFetchContent_keys w [Obj.PROTO] t Hmode) as (results & t' & H & Hkeys);
    [simpl; lia|].
  exists results, t'. split; [exact H|].
  assert (Hempty : Obj.keys results = ∅).
  { rewrite Hkeys. rewrite filter_cons, filter_nil.
    case_decide as Hd; [contradiction|reflexivity]. }
  split; [exact Hempty|].
  rewrite Hempty. intros Heq.
  assert (Hin : Obj.PROTO ∈ (∅ : gset jsstring)).
  { rewrite Heq. apply elem_of_list_to_set. apply list_elem_of_singleton. reflexivity. }
  apply not_elem_of_empty in Hin. exact Hin.
Qed.

Lemma batchFetchContent_loses_proto_key_witness :
  test_mode Examples.offline = false
  /\ exists results t',
       batchFetchContent Examples.offline [Obj.PROTO] [] = (Return results, t')
       /\ Obj.keys results = ∅
       /\ Obj.keys results <> list_to_set [Obj.PROTO].
Proof.
  split; [reflexivity|].
  apply (batchFetchContent_loses_proto_key Examples.offline []). reflexivity.
Defined.

Example batch_proto_offline :
  batchFetchContent Examples.offline [js "__proto__"] []
  = (Return {| own := ∅;
               proto := Some (ErrorEntry (js "コンテンツ抽出エラー: 無効なURL形式: __proto__")) |},
     []).
Proof. vm_compute. reflexivity. Qed.

(** C9.  A list of more than five URLs is refused with the limit message
    and the trace is left as it was: by the router's handler in every
    mode, and by [batchFetchContent] itself outside the test mode. *)
Theorem batch_over_limit (w : World) (urls : list jsstring) (t : Trace) :
  (5 < length urls)%nat ->
  handleBatchAnalyzeWebpages w urls t = (Return (error_response TOO_MANY_URLS), t)
  /\ (test_mode w = false ->
      batchFetchContent w urls t = (Throw (Err LIMIT_EXCEEDED), t)).
Proof.
  intros Hlen. apply Nat.ltb_lt in Hlen. split.
  - unfold handleBatchAnalyzeWebpages. rewrite Hlen. reflexivity.
  - intros Hmode. unfold batchFetchContent. rewrite Hmode, Hlen. reflexivity.
Qed.

Lemma batch_over_limit_witness :
  (5 < length Examples.six_urls)%nat
  /\ test_mode Examples.serving_AB = false
  /\ handleBatchAnalyzeWebpages Examples.serving_AB Examples.six_urls []
     = (Return (error_response TOO_MANY_URLS), [])
  /\ batchFetchContent Examples.serving_AB Examples.six_urls []
     = (Throw (Err LIMIT_EXCEEDED), []).
Proof.
  destruct (batch_over_limit Examples.serving_AB Examples.six_urls [])
    as [Hrouter Hfetcher]; [simpl; lia|].
  split; [simpl; lia|]. split; [reflexivity|]. split; [exact Hrouter|].
  apply Hfetcher. reflexivity.
Defined.

(** In the test mode [batchFetchContent] answers from the mock generator
    before it looks at the size of the list. *)
Example mock_batch_ignores_limit :
  match batchFetchContent Examples.testing Examples.six_urls [] with
  | (Return results, t') => t' = [] /\ size (own results) = 6%nat
  | (Throw _, _) => False
  end.
Proof. vm_compute. split; reflexivity. Qed.

Section RouterBatch.
Context (w : World).

Lemma invalidUrls_nil (urls : list jsstring) :
  invalidUrls w urls = [] -> Forall (fun u => URL_new w u <> None) urls.
Proof.
  unfold invalidUrls. induction urls as [|u urls IH]; intros H; [constructor|].
  rewrite filter_cons in H. case_decide as Hu; [discriminate|].
  constructor; [exact Hu|apply IH; exact H].
Qed.

Lemma successfulUrls_none (results : WebpageAnalysisResponse) :
  (forall u e, own results !! u = Some e -> has_error e = true) ->
  successfulUrls results = [].
Proof.
  intros H. unfold successfulUrls.
  destruct (filter _ (map_to_list (own results))) as [|[u e] rest] eqn:E; [reflexivity|].
  assert (Hin : (u, e) ∈ filter (fun kv : jsstring * BatchEntry => has_error kv.2 = false)
                            (map_to_list (own results)))
    by (rewrite E; apply elem_of_cons; left; reflexivity).
  apply list_elem_of_filter in Hin as [Hok Hin].
  apply elem_of_map_to_list in Hin. apply H in Hin. simpl in Hok. congruence.
Qed.

Lemma successfulUrls_some (results : WebpageAnalysisResponse) :
  successfulUrls results <> [] ->
  exists u e, own results !! u = Some e /\ has_error e = false.
Proof.
  unfold successfulUrls. intros H.
  destruct (filter _ (map_to_list (own results))) as [|[u e] rest] eqn:E;
    [contradiction|].
  assert (Hin : (u, e) ∈ filter (fun kv : jsstring * BatchEntry => has_error kv.2 = false)
                            (map_to_list (own results)))
    by (rewrite E; apply elem_of_cons; left; reflexivity).
  apply list_elem_of_filter in Hin as [Hok Hin].
  apply elem_of_map_to_list in Hin. exists u, e. split; assumption.
Qed.

(** In the test mode every URL the constructor accepts yields its mock
    page, and nothing is requested. *)
Lemma attempt_mock (url : jsstring) (t : Trace) :
  test_mode w = true -> URL_new w url <> None ->
  exists c, generateMockWebpageContent w url = Return c
            /\ attempt w url t = (Return (Content c), t).
Proof.
  intros Hmode Hurl. unfold attempt, try_catch, bind, fetchContent. rewrite Hmode.
  unfold lift, generateMockWebpageContent.
  destruct (URL_new w url) as [u|]; [|contradiction].
  eexists. split; reflexivity.
Qed.

Lemma mapM_attempt_mock (urls : list jsstring) (t : Trace) :
  test_mode w = true -> Forall (fun u => URL_new w u <> None) urls ->
  exists settled,
    mapM (attempt w) urls t = (Return settled, t)
    /\ length settled = length urls
    /\ Forall (fun e => has_error e = false) settled.
Proof.
  intros Hmode. induction 1 as [|url urls Hurl _ IH]; simpl.
  - exists []. split; [reflexivity|]. split; [reflexivity|constructor].
  - destruct (attempt_mock url t Hmode Hurl) as (c & _ & Hc).
    destruct IH as (settled & Hmap & Hlen & Hall).
    exists (Content c :: settled). unfold bind at 1. rewrite Hc.
    unfold bind at 1. rewrite Hmap.
    split; [reflexivity|]. split; [simpl; congruence|].
    constructor; [reflexivity|exact Hall].
Qed.

Lemma mock_loop (urls : list jsstring) (t : Trace) :
  Forall (fun u => URL_new w u <> None) urls ->
  forall acc : WebpageAnalysisResponse,
  exists results,
    foldM (fun mockResults url =>
             let* content := lift (generateMockWebpageContent w url) in
             ret (Obj.assign_object mockResults url (Content content)))
          urls acc t = (Return results, t)
    /\ (urls = [] -> results = acc).
Proof.
  induction 1 as [|url urls Hurl _ IH]; intros acc; simpl.
  - exists acc. split; reflexivity.
  - assert (Hmock : exists c, generateMockWebpageContent w url = Return c).
    { unfold generateMockWebpageContent.
      destruct (URL_new w url); [eexists; reflexivity|contradiction]. }
    destruct Hmock as [c Hc].
    unfold bind at 1. unfold bind at 1. unfold lift. rewrite Hc. unfold ret at 1.
    destruct (IH (Obj.assign_object acc url (Content c))) as (results & Hres & _).
    exists results. split; [exact Hres|discriminate].
Qed.

Lemma batchFetchContent_mock (urls : list jsstring) (t : Trace) :
  test_mode w = true -> Forall (fun u => URL_new w u <> None) urls ->
  exists results,
    batchFetchContent w urls t = (Return results, t)
    /\ (urls = [] -> own results = ∅).
Proof.
  intros Hmode Hall. unfold batchFetchContent. rewrite Hmode.
  destruct (mock_loop urls t Hall Obj.empty) as (results & Hres & Hnil).
  exists results. split; [exact Hres|].
  intros Hurls. rewrite (Hnil Hurls). reflexivity.
Qed.

(** Whatever the mode, a validated batch within the limit returns an
    object, and a page among its own entries is the work of a callback
    that succeeded. *)
Lemma batchFetchContent_entries (urls : list jsstring) (t : Trace) :
  (length urls <= 5)%nat -> invalidUrls w urls = [] ->
  exists settled t' results,
    mapM (attempt w) urls t = (Return settled, t')
    /\ batchFetchContent w urls t = (Return results, t')
    /\ (forall u e, own results !! u = Some e -> has_error e = false ->
        Exists (fun e' => has_error e' = false) settled).
Proof.
  intros Hlen Hvalid. apply invalidUrls_nil in Hvalid.
  destruct (test_mode w) eqn:Hmode.
  - destruct (mapM_attempt_mock urls t Hmode Hvalid) as (settled & Hmap & Hsize & Hall).
    destruct (batchFetchContent_mock urls t Hmode Hvalid) as (results & Hres & Hnil).
    exists settled, t, results. split; [exact Hmap|]. split; [exact Hres|].
    intros u e He _. destruct settled as [|e' settled].
    + destruct urls; [|discriminate].
      rewrite (Hnil eq_refl), lookup_empty in He. discriminate.
    + apply Exists_cons_hd. inversion Hall; assumption.
  - destruct (batchFetchContent_collects w urls t Hmode Hlen)
      as (settled & t' & Hmap & _ & Hres).
    exists settled, t',
      (collect (completion_order (settle_order w) (length urls)) urls settled).
    split; [exact Hmap|]. split; [exact Hres|].
    intros u e He Hok. unfold collect in He.
    apply collect_origin in He as [He|(i & _ & _ & Hi)].
    + simpl in He. rewrite lookup_empty in He. discriminate.
    + apply Exists_exists. exists e. split; [|exact Hok].
      eapply list_elem_of_lookup_2. exact Hi.
Qed.

End RouterBatch.


(** C10.  For a batch within the limit whose URLs all pass the URL
    constructor, the router's handler returns a response; when every
    callback ended in an error entry the response is the error response
    with the troubleshooting text, and a response without the error flag
    is the serialised mapping and implies that some callback produced a
    page. *)
Theorem batch_without_success_is_an_error (w : World) (urls : list jsstring) (t : Trace) :
  (length urls <= 5)%nat ->
  invalidUrls w urls = [] ->
  exists settled t' response,
    mapM (attempt w) urls t = (Return settled, t')
    /\ handleBatchAnalyzeWebpages w urls t = (Return response, t')
    /\ (Forall (fun e => has_error e = true) settled ->
        response = error_response NOTHING_EXTRACTED)
    /\ (isError response = false ->
        Exists (fun e => has_error e = false) settled
        /\ exists results,
             batchFetchContent w urls t = (Return results, t')
             /\ response = success w (Batch results)).
Proof.
  intros Hlen Hvalid.
  destruct (batchFetchContent_entries w urls t Hlen Hvalid)
    as (settled & t' & results & Hmap & Hres & Hown).
  exists settled, t'.
  unfold handleBatchAnalyzeWebpages.
  destruct (Nat.ltb_spec 5 (length urls)) as [H|_]; [lia|].
  rewrite Hvalid. cbn [length Nat.ltb Nat.leb].
  unfold try_catch, bind. rewrite Hres.
  destruct (successfulUrls results) as [|u rest] eqn:Hsucc; cbn [length Nat.eqb].
  - eexists. split; [exact Hmap|]. split; [reflexivity|].
    split; [reflexivity|]. unfold error_response; cbn [isError]. discriminate.
  - eexists. split; [exact Hmap|]. split; [reflexivity|].
    assert (Hsome : exists u e, own results !! u = Some e /\ has_error e = false)
      by (apply successfulUrls_some; rewrite Hsucc; discriminate).
    destruct Hsome as (u' & e & He & Hok).
    pose proof (Hown u' e He Hok) as Hex.
    split.
    + intros Hall. exfalso.
      apply Exists_exists in Hex as (e' & Hin & Hok').
      rewrite Forall_forall in Hall. apply Hall in Hin. congruence.
    + intros _. split; [exact Hex|]. exists results. split; reflexivity.
Qed.


Lemma batch_without_success_is_an_error_witness :
  (length Examples.two_urls <= 5)%nat
  /\ invalidUrls Examples.offline Examples.two_urls = []
  /\ exists settled t' response,
       mapM (attempt Examples.offline) Examples.two_urls [] = (Return settled, t')
       /\ handleBatchAnalyzeWebpages Examples.offline Examples.two_urls []
          = (Return response, t')
       /\ (Forall (fun e => has_error e = true) settled ->
           response = error_response NOTHING_EXTRACTED)
       /\ (isError response = false ->
           Exists (fun e => has_error e = false) settled
           /\ exists results,
                batchFetchContent Examples.offline Examples.two_urls [] = (Return results, t')
                /\ response = success Examples.offline (Batch results)).
Proof.
  split; [simpl; lia|]. split; [reflexivity|].
  apply (batch_without_success_is_an_error Examples.offline Examples.two_urls []);
    [simpl; lia|reflexivity].
Defined.

Example batch_offline_is_an_error :
  handleBatchAnalyzeWebpages Examples.offline Examples.two_urls []
  = (Return (error_response NOTHING_EXTRACTED),
     [AxiosGet (page_request (js "https://example.com"));
      AxiosGet (page_request (js "https://example.org"))]).
Proof. vm_compute. reflexivity. Qed.

Example batch_served_is_returned :
  handleBatchAnalyzeWebpages Examples.serving_AB Examples.two_urls []
  = (Return {| text := js "batch:2"; isError := false |},
     [AxiosGet (page_request (js "https://example.com"));
      AxiosGet (page_request (js "https://example.org"))]).
Proof. vm_compute. reflexivity. Qed.

(** ** Search *)

Section SearchFacts.
Context (w : World).

Lemma requests_after_lookup (t : Trace) : requests (t ++ [GetApiKeys]) = requests t.
Proof.
  unfold requests. rewrite filter_app, length_app. simpl. lia.
Qed.

(** A search that passes both guards looks the credentials up, issues
    one request and answers from how that request settles. *)
Lemma handleSearch_validated (args : SearchArgs) (t : Trace) :
  truthy (trim (query args)) = true ->
  count_rejected (num_results args) = false ->
  let req := search_request
               (build_params w (Config.api_keys w).1 (Config.api_keys w).2 args) in
  handleSearch w args t
  = (match axios_get w (requests t) req with
     | Return response =>
         match interpret w response with
         | Return r => Return r
         | Throw e => handleError w e (js "検索")
         end
     | Throw e => handleError w e (js "検索")
     end, t ++ [GetApiKeys; AxiosGet req]).
Proof.
  intros Hq Hn req. unfold handleSearch. rewrite Hq, Hn. cbn [negb].
  unfold try_catch, bind, Config.getApiKeys, bind, emit, ret, axios, lift.
  rewrite requests_after_lookup. fold req.
  replace ((t ++ [GetApiKeys]) ++ [AxiosGet req]) with (t ++ [GetApiKeys; AxiosGet req])
    by (rewrite <- app_assoc; reflexivity).
  destruct (axios_get w (requests t) req) as [response|e].
  - destruct (interpret w response) as [r|e]; [reflexivity|].
    destruct (handleError w e (js "検索")); reflexivity.
  - destruct (handleError w e (js "検索")); reflexivity.
Qed.

Lemma count_rejected_integer (z : Z) :
  count_rejected (Some (Number.of_Z z)) = true <-> (z <> 0 /\ (z < 1 \/ 10 < z))%Z.
Proof.
  unfold count_rejected, Number.truthy, Number.gtb, Number.ltb, Number.of_Z.
  cbn [Z.min Z.sub Z.pow]. change (Z.min 0 0) with 0%Z. change (0 - 0)%Z with 0%Z.
  change (2 ^ 0)%Z with 1%Z. rewrite !Z.mul_1_r.
  rewrite andb_true_iff, orb_true_iff, negb_true_iff, Z.eqb_neq, !Z.ltb_lt. lia.
Qed.

End SearchFacts.


(** C7.  A query that is empty or holds only white space is answered with
    the empty-query error, and the trace is left as it was: neither the
    credentials are looked up nor a request issued. *)
Theorem handleSearch_blank_query (w : World) (args : SearchArgs) (t : Trace) :
  Forall (fun c => is_whitespace c = true) (query args) ->
  handleSearch w args t = (Return (error_response EMPTY_QUERY), t).
Proof.
  intros H. unfold handleSearch. rewrite (trim_whitespace _ H). reflexivity.
Qed.

Lemma handleSearch_blank_query_witness :
  Forall (fun c => is_whitespace c = true) (query Examples.blank)
  /\ handleSearch (Examples.answering JNull) Examples.blank []
     = (Return (error_response EMPTY_QUERY), []).
Proof.
  split; [repeat constructor|].
  apply (handleSearch_blank_query (Examples.answering JNull)). repeat constructor.
Defined.

(** Every integer outside [1, 10] other than zero is refused. *)
Lemma handleSearch_count_outside (w : World) (args : SearchArgs) (t : Trace) (z : Z) :
  truthy (trim (query args)) = true ->
  num_results args = Some (Number.of_Z z) ->
  (z <> 0)%Z -> (z < 1 \/ 10 < z)%Z ->
  handleSearch w args t = (Return (error_response INVALID_RESULT_COUNT), t).
Proof.
  intros Hq Hn Hz Hout. unfold handleSearch. rewrite Hq, Hn. cbn [negb].
  rewrite (proj2 (count_rejected_integer z)) by (split; assumption). reflexivity.
Qed.

(** C3 at the count 0.  A search with a non-blank query and
    [num_results = 0] is not refused with the result-count error: the
    credentials are looked up and one request goes out, asking for the
    default of 5 results. *)
Theorem handleSearch_zero_count_defaults (w : World) (args : SearchArgs) (t : Trace) :
  truthy (trim (query args)) = true ->
  num_results args = Some (Number.of_Z 0) ->
  (exists outcome params,
     handleSearch w args t
     = (outcome, t ++ [GetApiKeys; AxiosGet (search_request params)])
     /\ num params = Number.of_Z 5)
  /\ handleSearch w args t <> (Return (error_response INVALID_RESULT_COUNT), t).
Proof.
  intros Hq Hn.
  assert (Hc : count_rejected (num_results args) = false) by (rewrite Hn; reflexivity).
  rewrite (handleSearch_validated w args t Hq Hc). split.
  - eexists _, _. split; [reflexivity|].
    unfold build_params; cbn [num]. rewrite Hn. reflexivity.
  - intros Heq. apply (f_equal snd) in Heq. cbn [snd] in Heq.
    revert Heq. apply trace_grows. discriminate.
Qed.

Lemma handleSearch_zero_count_defaults_witness :
  truthy (trim (query Examples.zero_count)) = true
  /\ num_results Examples.zero_count = Some (Number.of_Z 0)
  /\ (exists outcome params,
        handleSearch (Examples.answering Examples.empty_items) Examples.zero_count []
        = (outcome, [GetApiKeys; AxiosGet (search_request params)])
        /\ num params = Number.of_Z 5)
  /\ handleSearch (Examples.answering Examples.empty_items) Examples.zero_count []
     <> (Return (error_response INVALID_RESULT_COUNT), []).
Proof.
  split; [reflexivity|]. split; [reflexivity|].
  apply (handleSearch_zero_count_defaults (Examples.answering Examples.empty_items)
           Examples.zero_count []); reflexivity.
Defined.

Example search_with_zero_count_succeeds :
  (handleSearch (Examples.answering Examples.empty_items) Examples.zero_count []).1
  = Return {| text := js "results:0"; isError := false |}.
Proof. vm_compute. reflexivity. Qed.

Example search_with_eleven_is_refused :
  handleSearch (Examples.answering Examples.empty_items)
    {| query := js "news"; num_results := Some (Number.of_Z 11); date_restrict := None;
       language := None; country := None; safe_search := None |} []
  = (Return (error_response INVALID_RESULT_COUNT), []).
Proof. vm_compute. reflexivity. Qed.

Lemma get_missing_field (fields : list (jsstring * JSValue)) (k : jsstring) :
  Value.field k fields = None -> Value.get (JObj fields) (Named k) = Some JUndefined.
Proof. intros H. unfold Value.get. rewrite H. reflexivity. Qed.

Lemma interpret_items (w : World) (response : HttpResponse) (items : JSValue) :
  Value.get (data response) (Named (js "items")) = Some items ->
  (items = JArr [] -> interpret w response = Return (success w (SearchResults [])))
  /\ (items = JUndefined -> interpret w response = Return (error_response NO_RESULTS))
  /\ (Value.isArray items = false ->
      interpret w response = Return (error_response NO_RESULTS)).
Proof.
  intros Hget. unfold interpret, read. rewrite Hget.
  split; [|split].
  - intros ->. reflexivity.
  - intros ->. reflexivity.
  - intros ->. rewrite orb_true_r. reflexivity.
Qed.


Lemma get_defined (v : JSValue) (k : PropKey) :
  Value.is_nullish v = false -> Value.get v k = Some (Value.get_opt v k).
Proof. destruct v; intros H; try discriminate; reflexivity. Qed.

(** C5, as the specification states it, fails for a response whose body
    is [null]: such a body has no [items] at all, yet the answer is not
    the no-results error.  The read of [items] throws, and the handler
    answers with the general failure text. *)
Lemma handleSearch_null_body_no_results_refuted :
  Value.get_opt JNull (Named (js "items")) = JUndefined
  /\ handleSearch (Examples.answering JNull) Examples.news []
     = (Return (error_response
                  (js "検索" ++ js "に失敗しました: " ++ js "Cannot read properties" ++ js "\n"
                     ++ js "検索" ++ js " failed: " ++ js "Cannot read properties")),
        [GetApiKeys;
         AxiosGet (search_request
                     (build_params (Examples.answering JNull) (js "k") (js "e")
                        Examples.news))])
  /\ (handleSearch (Examples.answering JNull) Examples.news []).1
     <> Return (error_response NO_RESULTS).
Proof.
  split; [reflexivity|]. split; [vm_compute; reflexivity|].
  intros H. vm_compute in H. discriminate H.
Qed.

(** C5, amended.  For a search that passes validation and whose request
    is answered with a body that is neither [null] nor undefined: when
    the [items] of the body is the empty array the handler returns the
    serialised empty list, without the error flag; when the body has no
    [items] (the read gives undefined) or [items] is not an array, the
    handler returns the no-results error. *)
Theorem handleSearch_empty_list_or_no_results (w : World) (args : SearchArgs) (t : Trace)
    (response : HttpResponse) :
  truthy (trim (query args)) = true ->
  count_rejected (num_results args) = false ->
  let req := search_request
               (build_params w (Config.api_keys w).1 (Config.api_keys w).2 args) in
  axios_get w (requests t) req = Return response ->
  Value.is_nullish (data response) = false ->
  let items := Value.get_opt (data response) (Named (js "items")) in
  (items = JArr [] ->
   handleSearch w args t
   = (Return (success w (SearchResults [])), t ++ [GetApiKeys; AxiosGet req])
   /\ isError (success w (SearchResults [])) = false)
  /\ (items = JUndefined ->
      handleSearch w args t
      = (Return (error_response NO_RESULTS), t ++ [GetApiKeys; AxiosGet req]))
  /\ (Value.isArray items = false ->
      handleSearch w args t
      = (Return (error_response NO_RESULTS), t ++ [GetApiKeys; AxiosGet req])).
Proof.
  intros Hq Hn req Hres Hbody items.
  rewrite (handleSearch_validated w args t Hq Hn). fold req. rewrite Hres.
  destruct (interpret_items w response items
              (get_defined (data response) (Named (js "items")) Hbody))
    as (H1 & H2 & H3).
  split; [|split]; intros H.
  - rewrite (H1 H). split; reflexivity.
  - rewrite (H2 H). reflexivity.
  - rewrite (H3 H). reflexivity.
Qed.


Lemma handleSearch_empty_list_or_no_results_witness :
  (handleSearch (Examples.answering Examples.empty_items) Examples.news []
   = (Return (success (Examples.answering Examples.empty_items) (SearchResults [])),
      [GetApiKeys;
       AxiosGet (search_request
                   (build_params (Examples.answering Examples.empty_items)
                      (js "k") (js "e") Examples.news))]))
  /\ (handleSearch (Examples.answering Examples.no_items) Examples.news []
      = (Return (error_response NO_RESULTS),
         [GetApiKeys;
          AxiosGet (search_request
                      (build_params (Examples.answering Examples.no_items)
                         (js "k") (js "e") Examples.news))]))
  /\ (handleSearch (Examples.answering Examples.text_items) Examples.news []
      = (Return (error_response NO_RESULTS),
         [GetApiKeys;
          AxiosGet (search_request
                      (build_params (Examples.answering Examples.text_items)
                         (js "k") (js "e") Examples.news))])).
Proof.
  split; [|split].
  - apply (handleSearch_empty_list_or_no_results
             (Examples.answering Examples.empty_items) Examples.news []
             {| status := Number.of_Z 200; data := Examples.empty_items |}
             eq_refl eq_refl eq_refl eq_refl).
    reflexivity.
  - apply (handleSearch_empty_list_or_no_results
             (Examples.answering Examples.no_items) Examples.news []
             {| status := Number.of_Z 200; data := Examples.no_items |}
             eq_refl eq_refl eq_refl eq_refl).
    reflexivity.
  - apply (handleSearch_empty_list_or_no_results
             (Examples.answering Examples.text_items) Examples.news []
             {| status := Number.of_Z 200; data := Examples.text_items |}
             eq_refl eq_refl eq_refl eq_refl).
    reflexivity.
Defined.

(** A body that is [null] has no properties to read: the handler answers
    with the general failure text of [handleError]. *)
Example search_null_body :
  handleSearch (Examples.answering JNull) Examples.news []
  = (Return (error_response
               (js "検索に失敗しました: Cannot read properties\n検索 failed: Cannot read properties")),
     [GetApiKeys;
      AxiosGet (search_request
                  (build_params (Examples.answering JNull) (js "k") (js "e") Examples.news))]).
Proof. vm_compute. reflexivity. Qed.

Lemma when_given_some (v : jsstring) (f : jsstring -> jsstring) :
  v <> [] -> when_given (Some v) f = Some (f v).
Proof. intros H. destruct v; [contradiction|reflexivity]. Qed.


(** C8.  A search that passes validation issues one request whose
    parameters carry the query text and [date_restrict] unchanged, map a
    given language [l] to [lr = "lang_" ++ l] and a given country [c] to
    [cr = "country" ++ toUpperCase c], and have [safe = "off"] when no
    level is given. *)
Theorem handleSearch_parameter_mapping (w : World) (args : SearchArgs) (t : Trace) :
  truthy (trim (query args)) = true ->
  count_rejected (num_results args) = false ->
  exists outcome params,
    handleSearch w args t
    = (outcome, t ++ [GetApiKeys; AxiosGet (search_request params)])
    /\ q params = query args
    /\ dateRestrict params = date_restrict args
    /\ (forall l, language args = Some l -> l <> [] -> lr params = Some (js "lang_" ++ l))
    /\ (forall c, country args = Some c -> c <> [] ->
        cr params = Some (js "country" ++ toUpperCase w c))
    /\ (safe_search args = None -> safe params = js "off").
Proof.
  intros Hq Hn. rewrite (handleSearch_validated w args t Hq Hn).
  eexists _, _. split; [reflexivity|].
  unfold build_params; cbn [q dateRestrict lr cr safe].
  split; [reflexivity|]. split; [reflexivity|]. split; [|split].
  - intros l -> Hl. apply when_given_some. exact Hl.
  - intros c -> Hc. apply (when_given_some c (fun c => js "country" ++ toUpperCase w c)).
    exact Hc.
  - intros ->. reflexivity.
Qed.


Lemma handleSearch_parameter_mapping_witness :
  truthy (trim (query Examples.news)) = true
  /\ count_rejected (num_results Examples.news) = false
  /\ exists outcome params,
       handleSearch (Examples.answering JNull) Examples.news []
       = (outcome, [GetApiKeys; AxiosGet (search_request params)])
       /\ q params = js "news"
       /\ dateRestrict params = Some (js "m3")
       /\ lr params = Some (js "lang_ja")
       /\ cr params = Some (js "countryUS")
       /\ safe params = js "off".
Proof.
  split; [reflexivity|]. split; [reflexivity|].
  destruct (handleSearch_parameter_mapping (Examples.answering JNull) Examples.news []
              eq_refl eq_refl) as (outcome & params & H & Hq & Hd & Hl & Hc & Hs).
  exists outcome, params. split; [exact H|]. split; [exact Hq|]. split; [exact Hd|].
  split; [apply (Hl (js "ja")); [reflexivity|discriminate]|].
  split; [apply (Hc (js "us")); [reflexivity|discriminate]|].
  apply Hs. reflexivity.
Defined.

(** * Further properties of the handlers *)

Import Cheerio.

(** ** The page fetcher *)

Lemma fetchContent_mock (w : World) (url : jsstring) (t : Trace) :
  test_mode w = true ->
  fetchContent w url t = (generateMockWebpageContent w url, t).
Proof. intros Hmode. unfold fetchContent. rewrite Hmode. reflexivity. Qed.

(** X1.  A string that the URL constructor rejects is refused without any
    request: the router's handler answers with the invalid-URL error in
    every mode, and [fetchContent] throws an [Error] (outside the test
    mode with the text "無効なURL形式" and the string, in the test mode
    with the constructor's own message). *)
Theorem rejected_url_is_refused (w : World) (url : jsstring) (t : Trace) :
  URL_new w url = None ->
  handleAnalyzeWebpage w url t = (Return (error_response INVALID_URL), t)
  /\ fetchContent w url t
     = (Throw (Err (if test_mode w then URL_error w url
                    else js "コンテンツ抽出エラー: 無効なURL形式: " ++ url)), t).
Proof.
  intros Hurl. split; [apply handleAnalyzeWebpage_invalid; exact Hurl|].
  destruct (test_mode w) eqn:Hmode.
  - rewrite (fetchContent_mock w url t Hmode).
    unfold generateMockWebpageContent. rewrite Hurl. reflexivity.
  - rewrite (fetchContent_invalid w url t Hmode Hurl).
    vm_compute. reflexivity.
Qed.

Lemma rejected_url_is_refused_witness :
  URL_new Examples.serving_AB (js "invalid-url") = None
  /\ handleAnalyzeWebpage Examples.serving_AB (js "invalid-url") []
     = (Return (error_response INVALID_URL), [])
  /\ fetchContent Examples.serving_AB (js "invalid-url") []
     = (Throw (Err (js "コンテンツ抽出エラー: 無効なURL形式: invalid-url")), []).
Proof.
  split; [reflexivity|].
  apply (rejected_url_is_refused Examples.serving_AB (js "invalid-url") []). reflexivity.
Defined.

(** X2.  In every mode [fetchContent] issues at most one request, none
    for a string the URL constructor rejects, returns a content that
    carries the requested URL, and throws nothing but [Error] values:
    upstream Axios errors and values that are no errors are rewrapped. *)
Theorem fetchContent_one_request_plain_error (w : World) (target : jsstring) (t : Trace) :
  exists outcome t',
    fetchContent w target t = (outcome, t')
    /\ (t' = t \/ t' = t ++ [AxiosGet (page_request target)])
    /\ (URL_new w target = None -> t' = t)
    /\ match outcome with
       | Return c => url c = target
       | Throw (Err _) => True
       | Throw _ => False
       end.
Proof.
  destruct (test_mode w) eqn:Hmode.
  - rewrite (fetchContent_mock w target t Hmode).
    eexists _, t. split; [reflexivity|]. split; [left; reflexivity|].
    split; [reflexivity|].
    unfold generateMockWebpageContent. destruct (URL_new w target); [reflexivity|exact I].
  - destruct (URL_new w target) as [u|] eqn:Hurl.
    + rewrite (fetchContent_valid w target u t Hmode Hurl).
      eexists _, _. split; [reflexivity|]. split; [right; reflexivity|].
      split; [discriminate|].
      destruct (axios_get w (requests t) (page_request target)) as [response|e].
      * destruct (cheerio_load w (data response)) as [doc|e]; [reflexivity|].
        destruct e as [m|m [r|]|v]; exact I.
      * destruct e as [m|m [r|]|v]; exact I.
    + rewrite (fetchContent_invalid w target t Hmode Hurl).
      eexists _, t. split; [reflexivity|]. split; [left; reflexivity|].
      split; [reflexivity|exact I].
Qed.

Lemma foldM_mock_trace (w : World) (urls : list jsstring) :
  forall (acc : WebpageAnalysisResponse) (t : Trace),
    (foldM (fun mockResults url =>
              let* content := lift (generateMockWebpageContent w url) in
              ret (Obj.assign_object mockResults url (Content content)))
           urls acc t).2 = t.
Proof.
  induction urls as [|url urls IH]; intros acc t; simpl; [reflexivity|].
  unfold bind at 1. unfold bind at 1. unfold lift.
  destruct (generateMockWebpageContent w url) as [c|e]; [|reflexivity].
  unfold ret at 1. apply IH.
Qed.

Lemma batchFetchContent_mock_trace (w : World) (urls : list jsstring) (t : Trace) :
  test_mode w = true -> (batchFetchContent w urls t).2 = t.
Proof.
  intros Hmode. unfold batchFetchContent. rewrite Hmode. apply foldM_mock_trace.
Qed.

(** X3.  In the test mode the page fetcher and the two page handlers
    leave the trace as it was: they request nothing, whatever the
    inputs. *)
Theorem test_mode_requests_nothing (w : World) (url : jsstring) (urls : list jsstring)
    (t : Trace) :
  test_mode w = true ->
  (fetchContent w url t).2 = t
  /\ (batchFetchContent w urls t).2 = t
  /\ (handleAnalyzeWebpage w url t).2 = t
  /\ (handleBatchAnalyzeWebpages w urls t).2 = t.
Proof.
  intros Hmode.
  split; [rewrite (fetchContent_mock w url t Hmode); reflexivity|].
  split; [apply batchFetchContent_mock_trace; exact Hmode|].
  split.
  - unfold handleAnalyzeWebpage. destruct (URL_new w url); [|reflexivity].
    unfold try_catch, bind. rewrite (fetchContent_mock w url t Hmode).
    destruct (generateMockWebpageContent w url) as [c|e]; [reflexivity|].
    unfold lift. reflexivity.
  - unfold handleBatchAnalyzeWebpages.
    destruct (5 <? length urls)%nat; [reflexivity|]. cbn zeta.
    destruct (0 <? length (invalidUrls w urls))%nat; [reflexivity|].
    unfold try_catch, bind.
    pose proof (batchFetchContent_mock_trace w urls t Hmode) as Htrace.
    destruct (batchFetchContent w urls t) as [[results|e] t']; cbn [snd] in Htrace; subst t'.
    + destruct (length (successfulUrls results) =? 0)%nat; reflexivity.
    + unfold lift. reflexivity.
Qed.

Lemma test_mode_requests_nothing_witness :
  test_mode Examples.testing = true
  /\ (fetchContent Examples.testing Examples.example_com []).2 = []
  /\ (batchFetchContent Examples.testing Examples.six_urls []).2 = []
  /\ (handleAnalyzeWebpage Examples.testing Examples.example_com []).2 = []
  /\ (handleBatchAnalyzeWebpages Examples.testing Examples.six_urls []).2 = [].
Proof.
  split; [reflexivity|].
  apply (test_mode_requests_nothing Examples.testing Examples.example_com
           Examples.six_urls []). reflexivity.
Defined.

(** ** The batch *)

Section BatchMore.
Context (w : World).

(** What [fetchContent] throws is an [Error]. *)
Lemma fetchContent_throws_errors (url : jsstring) (t t' : Trace) (e : Thrown) :
  fetchContent w url t = (Throw e, t') -> exists message, e = Err message.
Proof.
  destruct (test_mode w) eqn:Hmode.
  - rewrite (fetchContent_mock w url t Hmode). unfold generateMockWebpageContent.
    destruct (URL_new w url); [discriminate|]. intros H. inversion H. eauto.
  - destruct (URL_new w url) as [u|] eqn:Hurl.
    + rewrite (fetchContent_valid w url u t Hmode Hurl).
      destruct (axios_get w (requests t) (page_request url)) as [response|x].
      * destruct (cheerio_load w (data response)) as [doc|x]; [discriminate|].
        intros H. inversion H. destruct x as [m|m [r|]|v]; simpl; eauto.
      * intros H. inversion H. destruct x as [m|m [r|]|v]; simpl; eauto.
    + rewrite (fetchContent_invalid w url t Hmode Hurl). intros H. inversion H. eauto.
Qed.

(** The requests a callback adds to the trace. *)
Lemma attempt_trace (url : jsstring) (t : Trace) :
  test_mode w = false ->
  (attempt w url t).2
  = t ++ (match URL_new w url with Some _ => [AxiosGet (page_request url)] | None => [] end).
Proof.
  intros Hmode. unfold attempt, try_catch, bind.
  destruct (URL_new w url) as [u|] eqn:Hurl.
  - rewrite (fetchContent_valid w url u t Hmode Hurl).
    destruct (axios_get w (requests t) (page_request url)) as [response|x].
    + destruct (cheerio_load w (data response)) as [doc|x]; [reflexivity|].
      destruct x as [m|m [r|]|v]; reflexivity.
    + destruct x as [m|m [r|]|v]; reflexivity.
  - rewrite (fetchContent_invalid w url t Hmode Hurl). rewrite app_nil_r. reflexivity.
Qed.

Lemma mapM_attempt_trace (urls : list jsstring) :
  test_mode w = false ->
  forall t,
    (mapM (attempt w) urls t).2
    = t ++ ((fun u => AxiosGet (page_request u))
              <$> filter (fun u => is_Some (URL_new w u)) urls).
Proof.
  intros Hmode. induction urls as [|url urls IH]; intros t; simpl.
  - rewrite app_nil_r. reflexivity.
  - unfold bind at 1.
    pose proof (attempt_trace url t Hmode) as Hone.
    destruct (attempt_settles w url t) as (entry & t1 & Hentry).
    rewrite Hentry in Hone |- *. cbn [snd] in Hone. subst t1.
    unfold bind at 1.
    pose proof (IH (t ++ (match URL_new w url with Some _ => [AxiosGet (page_request url)] | None => [] end)))
      as Hrest.
    destruct (mapM_attempt_settles w urls
                (t ++ (match URL_new w url with Some _ => [AxiosGet (page_request url)] | None => [] end)))
      as (settled & t2 & Hmap & _).
    rewrite Hmap in Hrest |- *. cbn [snd] in Hrest |- *. subst t2.
    rewrite filter_cons. destruct (URL_new w url) as [u|] eqn:Hurl.
    + case_decide as Hd; [|exfalso; apply Hd; eauto].
      rewrite fmap_cons, <- app_assoc. reflexivity.
    + case_decide as Hd; [destruct Hd; discriminate|].
      rewrite app_nil_r. reflexivity.
Qed.

Lemma collect_proto (urls : list jsstring) (settled : list BatchEntry) (order : list nat) :
  Obj.PROTO ∉ urls ->
  forall acc : WebpageAnalysisResponse,
    proto (fold_left (assign urls settled) order acc) = proto acc.
Proof.
  intros Hproto. induction order as [|i order IH]; intros acc; simpl; [reflexivity|].
  rewrite IH. unfold assign.
  destruct (urls !! i) as [url|] eqn:Hurl; [|reflexivity].
  destruct (settled !! i) as [entry|]; [|reflexivity].
  unfold Obj.assign_object. case_decide as Hk; [|reflexivity].
  exfalso. apply Hproto. subst url. eapply list_elem_of_lookup_2. exact Hurl.
Qed.

End BatchMore.

(** X4.  A callback of the batch turns the outcome of [fetchContent] into
    an entry: the content when it returned one, and otherwise an error
    entry with exactly the message of the [Error] thrown; the fallback
    text for a thrown value that is no error is never used. *)
Theorem failed_url_entry_keeps_message (w : World) (url : jsstring) (t : Trace) :
  exists t',
    (exists c,
       fetchContent w url t = (Return c, t')
       /\ attempt w url t = (Return (Content c), t'))
    \/ (exists message,
          fetchContent w url t = (Throw (Err message), t')
          /\ attempt w url t = (Return (ErrorEntry message), t')).
Proof.
  destruct (fetchContent w url t) as [[c|e] t'] eqn:H; exists t'.
  - left. exists c. split; [reflexivity|].
    unfold attempt, try_catch, bind. rewrite H. reflexivity.
  - right. destruct (fetchContent_throws_errors w url t t' e H) as [message ->].
    exists message. split; [reflexivity|].
    unfold attempt, try_catch, bind. rewrite H. reflexivity.
Qed.

(** X5.  Outside the test mode a batch within the limit issues one
    request for every URL the constructor accepts, in the order of the
    list, and none for the others. *)
Theorem batch_requests_follow_the_urls (w : World) (urls : list jsstring) (t : Trace) :
  test_mode w = false ->
  (length urls <= 5)%nat ->
  (batchFetchContent w urls t).2
  = t ++ ((fun u => AxiosGet (page_request u))
            <$> filter (fun u => is_Some (URL_new w u)) urls).
Proof.
  intros Hmode Hlen.
  destruct (batchFetchContent_collects w urls t Hmode Hlen)
    as (settled & t' & Hmap & _ & Hbatch).
  rewrite Hbatch. cbn [snd].
  pose proof (mapM_attempt_trace w urls Hmode t) as Htrace.
  rewrite Hmap in Htrace. exact Htrace.
Qed.

Lemma batch_requests_follow_the_urls_witness :
  test_mode Examples.offline = false
  /\ (length Examples.mixed_urls <= 5)%nat
  /\ (batchFetchContent Examples.offline Examples.mixed_urls []).2
     = [ AxiosGet (page_request (js "https://example.com"));
         AxiosGet (page_request (js "https://example.org")) ].
Proof.
  split; [reflexivity|]. split; [simpl; lia|].
  apply (batch_requests_follow_the_urls Examples.offline Examples.mixed_urls []);
    [reflexivity|simpl; lia].
Defined.

(** X6.  Outside the test mode, for at most five distinct URLs none of
    which is [__proto__], the batch returns an object whose keys are
    exactly the URLs, whose prototype is untouched, and in which every URL
    holds the entry of its own callback, whatever the order in which the
    callbacks resume. *)
Theorem batch_entry_per_url (w : World) (urls : list jsstring) (t : Trace) :
  test_mode w = false ->
  (length urls <= 5)%nat ->
  NoDup urls ->
  Obj.PROTO ∉ urls ->
  exists settled t' results,
    mapM (attempt w) urls t = (Return settled, t')
    /\ batchFetchContent w urls t = (Return results, t')
    /\ Obj.keys results = list_to_set urls
    /\ proto results = None
    /\ forall i u, urls !! i = Some u -> own results !! u = settled !! i.
Proof.
  intros Hmode Hlen Hnodup Hproto.
  destruct (batchFetchContent_collects w urls t Hmode Hlen)
    as (settled & t' & Hmap & Hsize & Hbatch).
  exists settled, t', (collect (completion_order (settle_order w) (length urls)) urls settled).
  split; [exact Hmap|]. split; [exact Hbatch|]. split; [|split].
  - rewrite collect_keys;
      [|exact Hsize|intros i Hi; apply completion_order_complete; exact Hi].
    rewrite (filter_without urls Hproto). reflexivity.
  - unfold collect. rewrite (collect_proto urls settled _ Hproto). reflexivity.
  - intros i u Hu.
    assert (Hi : (i < length urls)%nat) by (eapply lookup_lt_Some; exact Hu).
    destruct (lookup_lt_is_Some_2 settled i) as [e He]; [lia|].
    assert (Hne : u <> Obj.PROTO).
    { intros ->. apply Hproto. eapply list_elem_of_lookup_2. exact Hu. }
    destruct (collect_assigned urls settled
                (completion_order (settle_order w) (length urls)) Obj.empty i u e
                (completion_order_complete _ _ _ Hi) Hu He Hne) as [e' He'].
    unfold collect. rewrite He', He. f_equal.
    apply collect_origin in He' as [Habs|(j & _ & Hj & Hej)].
    + simpl in Habs. rewrite lookup_empty in Habs. discriminate.
    + assert (j = i) by (eapply NoDup_lookup; eassumption). subst j. congruence.
Qed.

Lemma batch_entry_per_url_witness :
  test_mode Examples.offline = false
  /\ (length Examples.two_urls <= 5)%nat
  /\ NoDup Examples.two_urls
  /\ (Obj.PROTO ∉ Examples.two_urls)
  /\ exists settled t' results,
       mapM (attempt Examples.offline) Examples.two_urls [] = (Return settled, t')
       /\ batchFetchContent Examples.offline Examples.two_urls [] = (Return results, t')
       /\ Obj.keys results = list_to_set Examples.two_urls
       /\ proto results = None
       /\ forall i u, Examples.two_urls !! i = Some u -> own results !! u = settled !! i.
Proof.
  assert (Hnodup : NoDup Examples.two_urls).
  { apply NoDup_cons_2; [|apply NoDup_singleton].
    intros H. apply list_elem_of_singleton in H. vm_compute in H. discriminate. }
  assert (Hproto : Obj.PROTO ∉ Examples.two_urls).
  { intros H. apply elem_of_cons in H as [H|H]; [vm_compute in H; discriminate|].
    apply list_elem_of_singleton in H. vm_compute in H. discriminate. }
  split; [reflexivity|]. split; [simpl; lia|]. split; [exact Hnodup|]. split; [exact Hproto|].
  apply (batch_entry_per_url Examples.offline Examples.two_urls []);
    [reflexivity|simpl; lia|exact Hnodup|exact Hproto].
Defined.

(** X7.  In the test mode the batch is not isolated per URL: at the first
    URL the constructor rejects it throws the constructor's error, with
    nothing requested and no mapping returned. *)
Theorem mock_batch_stops_at_rejected_url (w : World) (before after : list jsstring)
    (url : jsstring) (t : Trace) :
  test_mode w = true ->
  Forall (fun u => URL_new w u <> None) before ->
  URL_new w url = None ->
  batchFetchContent w (before ++ url :: after) t = (Throw (Err (URL_error w url)), t).
Proof.
  intros Hmode Hbefore Hurl. unfold batchFetchContent. rewrite Hmode.
  generalize (@Obj.empty BatchEntry).
  induction Hbefore as [|u before Hu _ IH]; intros acc; simpl.
  - unfold bind at 1. unfold bind at 1. unfold lift, generateMockWebpageContent.
    rewrite Hurl. reflexivity.
  - unfold bind at 1. unfold bind at 1. unfold lift.
    assert (Hmock : exists c, generateMockWebpageContent w u = Return c).
    { unfold generateMockWebpageContent.
      destruct (URL_new w u); [eexists; reflexivity|contradiction]. }
    destruct Hmock as [c Hc]. rewrite Hc. unfold ret at 1. apply IH.
Qed.

Lemma mock_batch_stops_at_rejected_url_witness :
  test_mode Examples.testing = true
  /\ Forall (fun u => URL_new Examples.testing u <> None) [js "https://example.com"]
  /\ URL_new Examples.testing (js "invalid-url") = None
  /\ batchFetchContent Examples.testing
       ([js "https://example.com"] ++ js "invalid-url" :: [js "https://example.org"]) []
     = (Throw (Err (js "Invalid URL")), []).
Proof.
  assert (H : Forall (fun u => URL_new Examples.testing u <> None) [js "https://example.com"])
    by (repeat constructor; discriminate).
  split; [reflexivity|]. split; [exact H|]. split; [reflexivity|].
  apply (mock_batch_stops_at_rejected_url Examples.testing [js "https://example.com"]
           [js "https://example.org"] (js "invalid-url") []);
    [reflexivity|exact H|reflexivity].
Defined.

(** ** The extractor *)

Section TrimFacts.

Lemma trimStart_head (s r : jsstring) (c : N) :
  trimStart s = c :: r -> is_whitespace c = false.
Proof.
  induction s as [|d s IH]; simpl; [discriminate|].
  destruct (is_whitespace d) eqn:Hd; [exact IH|].
  intros H. inversion H; subst. exact Hd.
Qed.

Lemma trimStart_fixed (s : jsstring) (c : N) :
  is_whitespace c = false -> trimStart (c :: s) = c :: s.
Proof. intros H. simpl. rewrite H. reflexivity. Qed.

Lemma trimStart_idempotent (s : jsstring) : trimStart (trimStart s) = trimStart s.
Proof.
  destruct (trimStart s) as [|c r] eqn:E; [reflexivity|].
  apply trimStart_fixed. eapply trimStart_head. exact E.
Qed.

Lemma trimStart_snoc (s : jsstring) (c : N) :
  is_whitespace c = false -> trimStart (s ++ [c]) = trimStart s ++ [c].
Proof.
  intros H. induction s as [|d s IH]; simpl.
  - rewrite H. reflexivity.
  - destruct (is_whitespace d); [exact IH|reflexivity].
Qed.

Lemma trimEnd_idempotent (s : jsstring) : trimEnd (trimEnd s) = trimEnd s.
Proof.
  unfold trimEnd. rewrite rev_involutive, trimStart_idempotent. reflexivity.
Qed.

Lemma trimEnd_keeps_head (s : jsstring) (c : N) :
  is_whitespace c = false -> exists r, trimEnd (c :: s) = c :: r.
Proof.
  intros H. unfold trimEnd. simpl rev at 2.
  rewrite (trimStart_snoc _ c H), rev_app_distr. simpl. eauto.
Qed.

(** Trimming twice is trimming once. *)
Lemma trim_idempotent (s : jsstring) : trim (trim s) = trim s.
Proof.
  assert (E0 : trim s = trimEnd (trimStart s)) by reflexivity.
  destruct (trimStart s) as [|c r] eqn:E; [rewrite E0; reflexivity|].
  pose proof (trimStart_head s r c E) as Hc.
  destruct (trimEnd_keeps_head r c Hc) as [r' Hr'].
  rewrite E0, Hr'. unfold trim. rewrite (trimStart_fixed r' c Hc), <- Hr'.
  apply trimEnd_idempotent.
Qed.

Lemma trim_head (s r : jsstring) (c : N) : trim s = c :: r -> is_whitespace c = false.
Proof.
  unfold trim. destruct (trimStart s) as [|d r0] eqn:E; [discriminate|].
  pose proof (trimStart_head s r0 d E) as Hd.
  destruct (trimEnd_keeps_head r0 d Hd) as [r' ->].
  intros H. inversion H; subst. exact Hd.
Qed.

Lemma trim_last (s : jsstring) (c : N) : last (trim s) = Some c -> is_whitespace c = false.
Proof.
  unfold trim, trimEnd. intros H.
  destruct (trimStart (rev (trimStart s))) as [|d r] eqn:E; [discriminate|].
  simpl in H. rewrite last_snoc in H. inversion H; subst.
  eapply trimStart_head. exact E.
Qed.

End TrimFacts.

Lemma Node_children_ind (P : Node -> Prop) :
  (forall t a cs, Forall P cs -> P (Elem t a cs)) ->
  (forall d, P (TextNode d)) ->
  (forall d, P (Comment d)) ->
  (forall cs, Forall P cs -> P (Fragment cs)) ->
  forall n, P n.
Proof.
  intros HE HT HC HF.
  refine (fix IH (n : Node) : P n :=
            match n with
            | Elem t a cs =>
                HE t a cs
                   ((fix all (l : list Node) : Forall P l :=
                       match l with
                       | [] => Forall_nil_2 P
                       | c :: l' => Forall_cons_2 P c l' (IH c) (all l')
                       end) cs)
            | TextNode d => HT d
            | Comment d => HC d
            | Fragment cs =>
                HF cs
                   ((fix all (l : list Node) : Forall P l :=
                       match l with
                       | [] => Forall_nil_2 P
                       | c :: l' => Forall_cons_2 P c l' (IH c) (all l')
                       end) cs)
            end).
Qed.

(** X8.  Outside the test mode the title of an extracted page is never
    empty and has no white space at either end (it is the trimmed text of
    the [title] elements, or "No Title"), and the content carries the
    requested URL. *)
Theorem extracted_title_is_trimmed_and_not_empty (w : World) (target : jsstring) (t t' : Trace)
    (c : WebpageContent) :
  test_mode w = false ->
  fetchContent w target t = (Return c, t') ->
  title c <> []
  /\ (forall first rest, title c = first :: rest -> is_whitespace first = false)
  /\ (forall final, last (title c) = Some final -> is_whitespace final = false)
  /\ url c = target.
Proof.
  intros Hmode H.
  destruct (fetchContent_extracts w target t t' c Hmode H) as [doc ->].
  unfold extract; cbn [title url].
  set (raw := text (select [tag "title"] doc)).
  destruct (truthy (trim raw)) eqn:Htruthy.
  - split; [destruct (trim raw); [discriminate|discriminate]|].
    split; [intros first rest; apply trim_head|].
    split; [intros final; apply trim_last|reflexivity].
  - split; [vm_compute; discriminate|].
    split; [intros first rest Heq; vm_compute in Heq; inversion Heq; reflexivity|].
    split; [intros final Heq; vm_compute in Heq; inversion Heq; reflexivity|reflexivity].
Qed.

Lemma extracted_title_is_trimmed_and_not_empty_witness :
  test_mode Examples.serving_AB = false
  /\ fetchContent Examples.serving_AB Examples.example_com []
     = (Return (extract Examples.example_com Examples.doc_AB),
        [AxiosGet (page_request Examples.example_com)])
  /\ title (extract Examples.example_com Examples.doc_AB) = js "No Title"
  /\ title (extract Examples.example_com Examples.doc_AB) <> [].
Proof.
  split; [reflexivity|]. split; [reflexivity|]. split; [reflexivity|].
  apply (extracted_title_is_trimmed_and_not_empty Examples.serving_AB Examples.example_com
           [] [AxiosGet (page_request Examples.example_com)]); reflexivity.
Defined.

Section Noise.
Context (ctx sel rm : Selector).

Local Abbreviation free := (fun n : Node => free_of rm n = true).

Lemma forallb_true_Forall {A} (f : A -> bool) (l : list A) :
  forallb f l = true <-> Forall (fun x => f x = true) l.
Proof.
  induction l as [|x l IH]; simpl.
  - split; [constructor|reflexivity].
  - rewrite andb_true_iff, IH. split.
    + intros [Hx Hl]. constructor; assumption.
    + intros H. inversion H; subst. split; assumption.
Qed.

Lemma free_of_elem (t : jsstring) (a : list (jsstring * jsstring)) (cs : list Node) :
  free_of rm (Elem t a cs) = true <-> matches rm t a = false /\ Forall free cs.
Proof.
  simpl. rewrite andb_true_iff, negb_true_iff, forallb_true_Forall. reflexivity.
Qed.

Lemma Forall_flat_map_intro {A B} (P : B -> Prop) (f : A -> list B) (l : list A) :
  Forall (fun x => Forall P (f x)) l -> Forall P (flat_map f l).
Proof.
  induction 1 as [|x l Hx _ IH]; simpl; [constructor|].
  apply Forall_app. split; assumption.
Qed.

Lemma flat_map_twice {A B C} (f : B -> list C) (g : A -> list B) (l : list A) :
  flat_map f (flat_map g l) = flat_map (fun x => flat_map f (g x)) l.
Proof.
  induction l as [|x l IH]; simpl; [reflexivity|].
  rewrite flat_map_app, IH. reflexivity.
Qed.

Lemma remove_node_free (n : Node) : Forall free (remove_node rm n).
Proof.
  induction n as [t a cs IH|d|d|cs _] using Node_children_ind; simpl.
  - destruct (matches rm t a) eqn:Hm; [constructor|].
    constructor; [|constructor]. apply free_of_elem. split; [exact Hm|].
    apply Forall_flat_map_intro. exact IH.
  - constructor; [reflexivity|constructor].
  - constructor; [reflexivity|constructor].
  - constructor; [reflexivity|constructor].
Qed.

Lemma remove_below_inside_free (n : Node) : Forall free (remove_below_node ctx rm true n).
Proof.
  induction n as [t a cs IH|d|d|cs _] using Node_children_ind; simpl.
  - destruct (matches rm t a) eqn:Hm; [constructor|].
    constructor; [|constructor]. apply free_of_elem. split; [exact Hm|].
    apply Forall_flat_map_intro. exact IH.
  - constructor; [reflexivity|constructor].
  - constructor; [reflexivity|constructor].
  - constructor; [reflexivity|constructor].
Qed.

Lemma find_node_free (n : Node) :
  forall inside, free_of rm n = true -> Forall free (find_node ctx sel inside n).
Proof.
  induction n as [t a cs IH|d|d|cs _] using Node_children_ind; intros inside Hfree; simpl;
    [|constructor|constructor|constructor].
  pose proof (proj1 (free_of_elem t a cs) Hfree) as [_ Hcs].
  apply Forall_app. split.
  - destruct (inside && matches sel t a); [|constructor].
    constructor; [exact Hfree|constructor].
  - apply Forall_flat_map_intro.
    rewrite Forall_forall in IH, Hcs. apply Forall_forall.
    intros c Hc. apply IH; [exact Hc|]. apply Hcs. exact Hc.
Qed.

Lemma find_remove_below_free (n : Node) :
  forall inside,
    Forall free (flat_map (find_node ctx sel inside) (remove_below_node ctx rm inside n)).
Proof.
  induction n as [t a cs IH|d|d|cs _] using Node_children_ind; intros inside; simpl;
    [|constructor|constructor|constructor].
  destruct (inside && matches rm t a) eqn:Hrm; [constructor|].
  simpl. rewrite app_nil_r. apply Forall_app. split.
  - destruct (inside && matches sel t a) eqn:Hsel; [|constructor].
    constructor; [|constructor].
    apply andb_true_iff in Hsel as [-> _]. simpl in Hrm |- *.
    apply free_of_elem. split; [exact Hrm|].
    apply Forall_flat_map_intro. apply Forall_forall. intros c _.
    apply remove_below_inside_free.
  - rewrite flat_map_twice. apply Forall_flat_map_intro.
    rewrite Forall_forall in IH. apply Forall_forall. intros c Hc. apply IH. exact Hc.
Qed.

Lemma find_after_remove_free (doc : Document) : Forall free (find ctx sel (remove rm doc)).
Proof.
  unfold find, remove. rewrite flat_map_twice.
  apply Forall_flat_map_intro. apply Forall_forall. intros n _.
  apply Forall_flat_map_intro.
  pose proof (remove_node_free n) as H. rewrite Forall_forall in H.
  apply Forall_forall. intros m Hm. apply find_node_free. apply H. exact Hm.
Qed.

Lemma find_after_remove_below_free (doc : Document) :
  Forall free (find ctx sel (remove_below ctx rm doc)).
Proof.
  unfold find, remove_below. rewrite flat_map_twice.
  apply Forall_flat_map_intro. apply Forall_forall. intros n _.
  apply find_remove_below_free.
Qed.

End Noise.

Lemma free_of_select_node (sel : Selector) (n : Node) :
  free_of sel n = true -> select_node sel n = [].
Proof.
  induction n as [t a cs IH|d|d|cs _] using Node_children_ind; intros Hfree;
    [|reflexivity|reflexivity|reflexivity].
  simpl in Hfree. apply andb_true_iff in Hfree as [Hm Hcs].
  apply negb_true_iff in Hm. simpl. rewrite Hm. simpl.
  apply forallb_true_Forall in Hcs.
  induction IH as [|c cs' Hc _ IHcs]; [reflexivity|].
  inversion Hcs; subst. simpl. rewrite Hc by assumption. simpl. apply IHcs. assumption.
Qed.

(** X9.  The noise selector ([script], [style], [nav], [footer],
    [header], [aside], [iframe], the ad and banner classes and ids) finds
    nothing at or below an element that the renderer visits, whichever
    content region was chosen: no visited element matches it, and neither
    does any element that a selector reaches below one.  The content of a
    [template] is not among these: selectors do not reach it. *)
Theorem visited_elements_hold_no_noise (sel : Selector) (doc : Document) :
  Forall (fun element => select_node NOISE element = []) (mainContent_find sel doc).
Proof.
  assert (H : Forall (fun element => free_of NOISE element = true)
                (mainContent_find sel doc)).
  { unfold mainContent_find. cbn zeta.
    destruct (0 <? length (select MAIN (remove NOISE doc)))%nat;
      [apply find_after_remove_free|].
    destruct (0 <? length (select ARTICLE (remove NOISE doc)))%nat;
      [apply find_after_remove_free|].
    destruct (0 <? length (select DIV_ROLE_MAIN (remove NOISE doc)))%nat;
      [apply find_after_remove_free|].
    destruct (0 <? length (select DIV_CONTENT (remove NOISE doc)))%nat;
      [apply find_after_remove_free|].
    apply find_after_remove_below_free. }
  apply Forall_forall. intros element Hin. rewrite Forall_forall in H.
  apply free_of_select_node. apply H. exact Hin.
Qed.

(** What a [template] holds stays in the page and in its text: the [nav]
    inside the template of [<p>Hi<template><nav>menu</nav></template></p>]
    is not removed, and the paragraph renders with its text. *)
Example template_content_is_rendered :
  remove NOISE Examples.doc_template = Examples.doc_template
  /\ markdown_content (extract Examples.example_com Examples.doc_template) = js "Himenu\n\n".
Proof. split; vm_compute; reflexivity. Qed.

(** X10.  An element whose text is empty or white space only contributes
    nothing to the rendered text, whatever its tag. *)
Theorem blank_element_renders_nothing (t : jsstring) (a : list (jsstring * jsstring))
    (cs : list Node) :
  Forall (fun c => is_whitespace c = true) (text cs) ->
  render (Elem t a cs) = [].
Proof.
  intros H. unfold render.
  change (text_node (Elem t a cs)) with (text cs).
  rewrite (trim_whitespace _ H). reflexivity.
Qed.

Lemma blank_element_renders_nothing_witness :
  Forall (fun c => is_whitespace c = true)
         (text [TextNode [32; 10]; Elem (js "span") [] [TextNode [9]]])
  /\ render (Elem (js "p") [] [TextNode [32; 10]; Elem (js "span") [] [TextNode [9]]]) = [].
Proof.
  assert (H : Forall (fun c => is_whitespace c = true)
                     (text [TextNode [32; 10]; Elem (js "span") [] [TextNode [9]]]))
    by (repeat constructor).
  split; [exact H|].
  apply (blank_element_renders_nothing (js "p") []). exact H.
Defined.

(** X11.  An element with collapsed text [x], not empty, renders as: [k]
    hash signs, a space, [x] and a blank line for the heading of level
    [k] in 1..6; [x] and a blank line for a paragraph; ["> "], [x] and a
    blank line for a block quote; one ["- item"] line per [li] below it
    and a closing newline for [ul], and the same for [ol]. *)
Theorem blocks_render_as_markdown (k : nat) (a : list (jsstring * jsstring))
    (cs : list Node) :
  (1 <= k <= 6)%nat ->
  truthy (replace_ws_runs (trim (text cs))) = true ->
  let x := replace_ws_runs (trim (text cs)) in
  render (Elem (js "h" ++ [48 + N.of_nat k]) a cs) = replicate k 35 ++ js " " ++ x ++ js "\n\n"
  /\ render (Elem (js "p") a cs) = x ++ js "\n\n"
  /\ render (Elem (js "blockquote") a cs) = js "> " ++ x ++ js "\n\n"
  /\ render (Elem (js "ul") a cs)
     = flat_map (fun li => js "- " ++ trim (text_node li) ++ js "\n") (select LI cs)
         ++ js "\n"
  /\ render (Elem (js "ol") a cs) = render (Elem (js "ul") a cs).
Proof.
  intros Hk Hx x. subst x. unfold render, text in *. cbn [text_node].
  rewrite Hx. cbn [negb].
  split; [|repeat split; reflexivity].
  assert (Hcase : (k = 1 \/ k = 2 \/ k = 3 \/ k = 4 \/ k = 5 \/ k = 6)%nat) by lia.
  destruct Hcase as [-> | [-> | [-> | [-> | [-> | ->] ] ] ] ]; reflexivity.
Qed.

Lemma blocks_render_as_markdown_witness :
  (1 <= 2 <= 6)%nat
  /\ truthy (replace_ws_runs (trim (text [TextNode (js " Two  words ")]))) = true
  /\ render (Elem (js "h2") [] [TextNode (js " Two  words ")]) = js "## Two words\n\n"
  /\ render (Elem (js "p") [] [TextNode (js " Two  words ")]) = js "Two words\n\n"
  /\ render (Elem (js "blockquote") [] [TextNode (js " Two  words ")])
     = js "> Two words\n\n".
Proof.
  split; [lia|]. split; [reflexivity|].
  destruct (blocks_render_as_markdown 2 [] [TextNode (js " Two  words ")])
    as (Hh & Hp & Hq & _); [lia|reflexivity|].
  split; [exact Hh|]. split; [exact Hp|exact Hq].
Defined.

Section MetaFacts.
Context (metas : list Node).

Local Abbreviation meta_entry k v :=
  (k <> [] /\ v <> [] /\ k <> Obj.PROTO
   /\ exists t a cs,
        Elem t a cs ∈ metas
        /\ attr (js "content") a = Some v
        /\ (attr (js "name") a = Some k \/ attr (js "property") a = Some k)).

Lemma or_else_some (x y : option jsstring) (n : jsstring) :
  or_else x y = Some n -> x = Some n \/ y = Some n.
Proof.
  unfold or_else. destruct x as [s|]; [|right; assumption].
  destruct (truthy s); [left|right]; assumption.
Qed.

Lemma truthy_not_nil (s : jsstring) : truthy s = true -> s <> [].
Proof. destruct s; [discriminate|discriminate]. Qed.

Lemma collect_meta_fold (l : list Node) :
  (forall n, n ∈ l -> n ∈ metas) ->
  forall acc : JSObject jsstring,
    proto acc = None ->
    (forall k v, own acc !! k = Some v -> meta_entry k v) ->
    let result :=
      fold_left
        (fun metaTags element =>
           match element with
           | Elem _ a _ =>
               let name := or_else (attr (js "name") a) (attr (js "property") a) in
               let content := attr (js "content") a in
               match name, content with
               | Some n, Some c =>
                   if truthy n && truthy c then Obj.assign_primitive metaTags n c
                   else metaTags
               | _, _ => metaTags
               end
           | _ => metaTags
           end) l acc in
    proto result = None /\ (forall k v, own result !! k = Some v -> meta_entry k v).
Proof.
  induction l as [|element l IH]; intros Hsub acc Hproto Hacc; [split; assumption|].
  cbn zeta. simpl fold_left. apply IH.
  - intros n Hn. apply Hsub. apply elem_of_cons. right. exact Hn.
  - destruct element as [t a cs|d|d|cs]; try exact Hproto.
    destruct (or_else _ _) as [n|]; [|exact Hproto].
    destruct (attr (js "content") a) as [c|]; [|exact Hproto].
    destruct (truthy n && truthy c); [|exact Hproto].
    unfold Obj.assign_primitive. case_decide; [exact Hproto|exact Hproto].
  - destruct element as [t a cs|d|d|cs]; try exact Hacc.
    destruct (or_else (attr (js "name") a) (attr (js "property") a)) as [n|] eqn:Hname;
      [|exact Hacc].
    destruct (attr (js "content") a) as [c|] eqn:Hcontent; [|exact Hacc].
    destruct (truthy n && truthy c) eqn:Htruthy; [|exact Hacc].
    apply andb_true_iff in Htruthy as [Hn Hc].
    unfold Obj.assign_primitive. case_decide as Hk; [exact Hacc|].
    cbn [own]. intros k v Hlookup.
    destruct (decide (n = k)) as [<-|Hne].
    + rewrite lookup_insert_eq in Hlookup. inversion Hlookup; subst v.
      split; [apply truthy_not_nil; exact Hn|].
      split; [apply truthy_not_nil; exact Hc|].
      split; [exact Hk|].
      exists t, a, cs. split; [apply Hsub; apply elem_of_cons; left; reflexivity|].
      split; [exact Hcontent|]. apply or_else_some. exact Hname.
    + rewrite lookup_insert_ne in Hlookup by exact Hne. apply Hacc. exact Hlookup.
Qed.

End MetaFacts.

(** X12.  The collected meta tags never replace the prototype of the
    object, have no empty key or value and no key [__proto__], and every
    entry is the [content] of a [meta] element keyed by its [name] or
    [property] attribute. *)
Theorem meta_tags_hold_named_contents (doc : Document) :
  proto (collect_meta doc) = None
  /\ forall k v,
       own (collect_meta doc) !! k = Some v ->
       k <> [] /\ v <> [] /\ k <> Obj.PROTO
       /\ exists t a cs,
            Elem t a cs ∈ select [tag "meta"] doc
            /\ attr (js "content") a = Some v
            /\ (attr (js "name") a = Some k \/ attr (js "property") a = Some k).
Proof.
  apply (collect_meta_fold (select [tag "meta"] doc) (select [tag "meta"] doc)).
  - intros n Hn. exact Hn.
  - reflexivity.
  - intros k v H. simpl in H. rewrite lookup_empty in H. discriminate.
Qed.

(** ** The router *)

(** The bilingual text of a failure without an HTTP response. *)
Lemma handleError_plain (w : World) (e : Thrown) (context : jsstring) :
  (forall m r, e <> AxiosErr m (Some r)) ->
  handleError w e context
  = Return (error_response
              (let message := match e with
                              | Err m | AxiosErr m _ => m
                              | NonErr _ => js "不明なエラー"
                              end in
               context ++ js "に失敗しました: " ++ message ++ js "\n" ++ context
                 ++ js " failed: " ++ message)).
Proof.
  intros H. destruct e as [m|m [r|]|v]; try reflexivity.
  exfalso. exact (H m r eq_refl).
Qed.

Lemma handleError_message (w : World) (e : Thrown) (message context : jsstring) :
  e = Err message \/ e = AxiosErr message None ->
  handleError w e context
  = Return (error_response
              (context ++ js "に失敗しました: " ++ message ++ js "\n" ++ context
                 ++ js " failed: " ++ message)).
Proof. intros [-> | ->]; reflexivity. Qed.

(** X13.  Every response that [handleError] returns carries the error
    flag, and [handleError] itself throws only for an Axios error that has
    an HTTP response. *)
Theorem handleError_always_flags_an_error (w : World) (e : Thrown) (context : jsstring) :
  match handleError w e context with
  | Return response => isError response = true
  | Throw thrown => exists m r, e = AxiosErr m (Some r)
  end.
Proof.
  destruct e as [m|m [r|]|v]; try reflexivity.
  unfold handleError.
  destruct (Number.gtb _ _); [|reflexivity].
  destruct (Value.or _ (JArr [])) as [| | | | |elems| |]; try (eexists _, _; reflexivity).
  destruct (mapO _ elems); [reflexivity|]. eexists _, _; reflexivity.
Qed.

(** X14.  The two page handlers never reject.  A world fixes how every
    request settles, fulfilled or rejected and with whatever value; once
    the requests a handler issued have settled that way, the handler
    returns a response, for every input and in every mode.  (No timeout
    is set on the requests, and a request that never settles is not
    among the outcomes a world describes: the handler then stays
    pending.) *)
Theorem webpage_handlers_never_reject (w : World) (url : jsstring) (urls : list jsstring)
    (t : Trace) :
  (exists response t', handleAnalyzeWebpage w url t = (Return response, t'))
  /\ (exists response t', handleBatchAnalyzeWebpages w urls t = (Return response, t')).
Proof.
  split.
  - unfold handleAnalyzeWebpage.
    destruct (URL_new w url) as [u|] eqn:Hurl; [|eexists _, _; reflexivity].
    unfold try_catch, bind.
    destruct (fetchContent w url t) as [[c|e] t'] eqn:H; [eexists _, _; reflexivity|].
    destruct (test_mode w) eqn:Hmode.
    + rewrite (fetchContent_mock w url t Hmode) in H.
      unfold generateMockWebpageContent in H. rewrite Hurl in H. discriminate.
    + rewrite (fetchContent_valid w url u t Hmode Hurl) in H.
      assert (He : exists m, e = Err m).
      { destruct (axios_get w (requests t) (page_request url)) as [response|x].
        - destruct (cheerio_load w (data response)) as [doc|x]; [discriminate|].
          inversion H. destruct x as [m|m [r|]|v]; simpl; eauto.
        - inversion H. destruct x as [m|m [r|]|v]; simpl; eauto. }
      destruct He as [m ->]. unfold lift.
      rewrite handleError_plain by discriminate. eexists _, _; reflexivity.
  - unfold handleBatchAnalyzeWebpages.
    destruct (Nat.ltb_spec 5 (length urls)) as [Hlen|Hlen]; [eexists _, _; reflexivity|].
    cbn zeta.
    destruct (invalidUrls w urls) as [|bad rest] eqn:Hinvalid;
      [|eexists _, _; reflexivity].
    cbn [length Nat.ltb Nat.leb].
    destruct (batchFetchContent_entries w urls t Hlen Hinvalid)
      as (settled & t' & results & _ & Hres & _).
    unfold try_catch, bind. rewrite Hres.
    destruct (length (successfulUrls results) =? 0)%nat; eexists _, _; reflexivity.
Qed.

(** X15.  The count sent upstream by a search that passes validation is
    never below 1 nor above 10; it is 5 when no count is given, and a
    given integer count other than zero is sent as it is. *)
Theorem requested_count_is_in_range (w : World) (args : SearchArgs) (t : Trace) :
  truthy (trim (query args)) = true ->
  count_rejected (num_results args) = false ->
  exists outcome params,
    handleSearch w args t
    = (outcome, t ++ [GetApiKeys; AxiosGet (search_request params)])
    /\ Number.ltb (num params) (Number.of_Z 1) = false
    /\ Number.gtb (num params) (Number.of_Z 10) = false
    /\ (num_results args = None -> num params = Number.of_Z 5)
    /\ (forall z, num_results args = Some (Number.of_Z z) -> z <> 0%Z ->
        num params = Number.of_Z z /\ (1 <= z <= 10)%Z).
Proof.
  intros Hq Hn. rewrite (handleSearch_validated w args t Hq Hn).
  eexists _, _. split; [reflexivity|].
  unfold build_params; cbn [num]. unfold count_rejected in Hn.
  destruct (num_results args) as [n|].
  - destruct (Number.truthy n) eqn:Htruthy.
    + cbn [andb] in Hn. apply orb_false_iff in Hn as [Hlt Hgt].
      split; [exact Hlt|]. split; [exact Hgt|]. split; [discriminate|].
      intros z Hz Hnz. inversion Hz; subst n. split; [reflexivity|].
      destruct (Z_le_dec 1 z) as [Hlo|Hlo]; [destruct (Z_le_dec z 10) as [Hhi|Hhi]|].
      * lia.
      * assert (Hrej : count_rejected (Some (Number.of_Z z)) = true)
          by (apply count_rejected_integer; lia).
        unfold count_rejected in Hrej. rewrite Htruthy, Hlt, Hgt in Hrej. discriminate.
      * assert (Hrej : count_rejected (Some (Number.of_Z z)) = true)
          by (apply count_rejected_integer; lia).
        unfold count_rejected in Hrej. rewrite Htruthy, Hlt, Hgt in Hrej. discriminate.
    + split; [reflexivity|]. split; [reflexivity|]. split; [discriminate|].
      intros z Hz Hnz. inversion Hz; subst n.
      unfold Number.truthy, Number.of_Z in Htruthy.
      apply negb_false_iff, Z.eqb_eq in Htruthy. contradiction.
  - split; [reflexivity|]. split; [reflexivity|]. split; [reflexivity|]. discriminate.
Qed.

Lemma requested_count_is_in_range_witness :
  truthy (trim (query Examples.news)) = true
  /\ count_rejected (num_results Examples.news) = false
  /\ exists outcome params,
       handleSearch (Examples.answering JNull) Examples.news []
       = (outcome, [GetApiKeys; AxiosGet (search_request params)])
       /\ num params = Number.of_Z 5.
Proof.
  split; [reflexivity|]. split; [reflexivity|].
  destruct (requested_count_is_in_range (Examples.answering JNull) Examples.news []
              eq_refl eq_refl) as (outcome & params & H & _ & _ & Hdefault & _).
  exists outcome, params. split; [exact H|]. apply Hdefault. reflexivity.
Defined.

(** X16.  A search with a non-blank query and a count that is a non-zero
    integer outside [1, 10], or an infinity, is refused with the
    result-count error before any credential lookup or request. *)
Theorem count_out_of_range_is_refused (w : World) (args : SearchArgs) (t : Trace)
    (n : number) :
  truthy (trim (query args)) = true ->
  num_results args = Some n ->
  (exists z, n = Number.of_Z z /\ z <> 0 /\ (z < 1 \/ 10 < z))%Z
  \/ n = PosInf \/ n = NegInf ->
  handleSearch w args t = (Return (error_response INVALID_RESULT_COUNT), t).
Proof.
  intros Hq Hn Hout. unfold handleSearch. rewrite Hq, Hn. cbn [negb].
  assert (Hrej : count_rejected (Some n) = true).
  { destruct Hout as [(z & -> & Hz & Hrange)|[-> | ->]]; [|reflexivity|reflexivity].
    apply count_rejected_integer. split; assumption. }
  rewrite Hrej. reflexivity.
Qed.

Lemma count_out_of_range_is_refused_witness :
  truthy (trim (query Examples.eleven)) = true
  /\ num_results Examples.eleven = Some (Number.of_Z 11)
  /\ handleSearch (Examples.answering Examples.empty_items) Examples.eleven []
     = (Return (error_response INVALID_RESULT_COUNT), []).
Proof.
  split; [reflexivity|]. split; [reflexivity|].
  apply (count_out_of_range_is_refused (Examples.answering Examples.empty_items) Examples.eleven []
           (Number.of_Z 11)); [reflexivity|reflexivity|].
  left. exists 11%Z. split; [reflexivity|]. split; [discriminate|right; reflexivity].
Defined.

Section ResultFacts.
Context (w : World).

Lemma to_result_defined (item : JSValue) :
  Value.is_nullish item = false ->
  exists r,
    to_result w item = Return r
    /\ sr_title r = Value.get_opt item (Named (js "title"))
    /\ sr_link r = Value.get_opt item (Named (js "link"))
    /\ sr_snippet r = Value.get_opt item (Named (js "snippet"))
    /\ sr_pagemap r = Value.get_opt item (Named (js "pagemap"))
    /\ sr_source r = Value.or (Value.get_opt item (Named (js "displayLink"))) (JStr []).
Proof.
  intros H. unfold to_result, read, Value.get_opt.
  destruct (Value.get item (Named (js "title"))) as [x|] eqn:Hget.
  - eexists. split; [reflexivity|]. repeat split; reflexivity.
  - destruct item; discriminate.
Qed.

Lemma to_result_nullish (item : JSValue) :
  Value.is_nullish item = true ->
  to_result w item = Throw (Err (TypeError_message w item (Named (js "title")))).
Proof. intros H. destruct item; try discriminate; reflexivity. Qed.

Lemma mapO_to_result (elems : list JSValue) :
  Forall (fun item => Value.is_nullish item = false) elems ->
  exists results,
    mapO (to_result w) elems = Return results
    /\ length results = length elems
    /\ forall i item,
         elems !! i = Some item ->
         exists r,
           results !! i = Some r
           /\ sr_title r = Value.get_opt item (Named (js "title"))
           /\ sr_link r = Value.get_opt item (Named (js "link"))
           /\ sr_snippet r = Value.get_opt item (Named (js "snippet"))
           /\ sr_pagemap r = Value.get_opt item (Named (js "pagemap"))
           /\ sr_source r
              = Value.or (Value.get_opt item (Named (js "displayLink"))) (JStr []).
Proof.
  induction 1 as [|item elems Hitem _ IH].
  - exists []. split; [reflexivity|]. split; [reflexivity|].
    intros i item H. rewrite lookup_nil in H. discriminate.
  - destruct (to_result_defined item Hitem) as (r & Hr & Hfields).
    destruct IH as (results & Hmap & Hlen & Hall).
    exists (r :: results). simpl. rewrite Hr, Hmap.
    split; [reflexivity|]. split; [simpl; congruence|].
    intros [|i] x Hx; simpl in Hx.
    + inversion Hx; subst x. exists r. split; [reflexivity|exact Hfields].
    + apply Hall. exact Hx.
Qed.

End ResultFacts.

(** X17.  When the upstream [items] is an array without [null] elements,
    the search succeeds with one result per item, in the order of the
    items, each with the item's [title], [link], [snippet] and [pagemap]
    and with [source] equal to [displayLink] or, failing that, the empty
    string. *)
Theorem search_results_follow_the_items (w : World) (args : SearchArgs) (t : Trace)
    (response : HttpResponse) (elems : list JSValue) :
  truthy (trim (query args)) = true ->
  count_rejected (num_results args) = false ->
  let req := search_request
               (build_params w (Config.api_keys w).1 (Config.api_keys w).2 args) in
  axios_get w (requests t) req = Return response ->
  Value.get (data response) (Named (js "items")) = Some (JArr elems) ->
  Forall (fun item => Value.is_nullish item = false) elems ->
  exists results,
    handleSearch w args t
    = (Return (success w (SearchResults results)), t ++ [GetApiKeys; AxiosGet req])
    /\ length results = length elems
    /\ forall i item,
         elems !! i = Some item ->
         exists r,
           results !! i = Some r
           /\ sr_title r = Value.get_opt item (Named (js "title"))
           /\ sr_link r = Value.get_opt item (Named (js "link"))
           /\ sr_snippet r = Value.get_opt item (Named (js "snippet"))
           /\ sr_pagemap r = Value.get_opt item (Named (js "pagemap"))
           /\ sr_source r
              = Value.or (Value.get_opt item (Named (js "displayLink"))) (JStr []).
Proof.
  intros Hq Hn req Hres Hget Hitems.
  destruct (mapO_to_result w elems Hitems) as (results & Hmap & Hlen & Hall).
  exists results. split; [|split; [exact Hlen|exact Hall]].
  rewrite (handleSearch_validated w args t Hq Hn). fold req. rewrite Hres.
  unfold interpret, read. rewrite Hget. cbn [Value.truthy Value.isArray negb orb].
  rewrite Hmap. reflexivity.
Qed.

Lemma search_results_follow_the_items_witness :
  exists results first second,
    handleSearch (Examples.answering Examples.two_items) Examples.news []
    = (Return (success (Examples.answering Examples.two_items) (SearchResults results)),
       [GetApiKeys;
        AxiosGet (search_request
                    (build_params (Examples.answering Examples.two_items) (js "k") (js "e")
                       Examples.news))])
    /\ results = [first; second]
    /\ sr_title first = JStr (js "First")
    /\ sr_source first = JStr []
    /\ sr_title second = JStr (js "Second")
    /\ sr_source second = JStr (js "b.example").
Proof.
  destruct (search_results_follow_the_items (Examples.answering Examples.two_items) Examples.news []
              {| status := Number.of_Z 200; data := Examples.two_items |}
              [ JObj [(js "title", JStr (js "First")); (js "link", JStr (js "https://a.example"))];
                JObj [(js "title", JStr (js "Second"));
                      (js "displayLink", JStr (js "b.example"))] ]
              eq_refl eq_refl eq_refl eq_refl)
    as (results & H & Hlen & Hall); [repeat constructor|].
  destruct results as [|first [|second [|third rest]]]; try discriminate.
  exists [first; second], first, second.
  split; [exact H|]. split; [reflexivity|].
  destruct (Hall 0%nat _ eq_refl) as (r0 & Hr0 & Ht0 & _ & _ & _ & Hs0).
  destruct (Hall 1%nat _ eq_refl) as (r1 & Hr1 & Ht1 & _ & _ & _ & Hs1).
  simpl in Hr0, Hr1. inversion Hr0; subst r0. inversion Hr1; subst r1.
  split; [exact Ht0|]. split; [exact Hs0|]. split; [exact Ht1|exact Hs1].
Defined.

(** X18.  When the request of a validated search fails without an HTTP
    response, the handler does not throw: it returns the error response
    whose text names the failure message in both languages. *)
Theorem search_failure_without_response_is_reported (w : World) (args : SearchArgs)
    (t : Trace) (e : Thrown) (message : jsstring) :
  truthy (trim (query args)) = true ->
  count_rejected (num_results args) = false ->
  let req := search_request
               (build_params w (Config.api_keys w).1 (Config.api_keys w).2 args) in
  axios_get w (requests t) req = Throw e ->
  e = Err message \/ e = AxiosErr message None ->
  handleSearch w args t
  = (Return (error_response
               (js "検索" ++ js "に失敗しました: " ++ message ++ js "\n" ++ js "検索"
                  ++ js " failed: " ++ message)),
     t ++ [GetApiKeys; AxiosGet req]).
Proof.
  intros Hq Hn req Hres He.
  rewrite (handleSearch_validated w args t Hq Hn). fold req. rewrite Hres.
  rewrite (handleError_message w e message (js "検索") He). reflexivity.
Qed.

Lemma search_failure_without_response_is_reported_witness :
  truthy (trim (query Examples.news)) = true
  /\ count_rejected (num_results Examples.news) = false
  /\ handleSearch Examples.offline Examples.news []
     = (Return (error_response
                  (js "検索" ++ js "に失敗しました: " ++ js "connect ECONNREFUSED" ++ js "\n"
                     ++ js "検索" ++ js " failed: " ++ js "connect ECONNREFUSED")),
        [GetApiKeys;
         AxiosGet (search_request
                     (build_params Examples.offline (js "k") (js "e") Examples.news))]).
Proof.
  split; [reflexivity|]. split; [reflexivity|].
  apply (search_failure_without_response_is_reported Examples.offline Examples.news []
           (AxiosErr (js "connect ECONNREFUSED") None) (js "connect ECONNREFUSED")
           eq_refl eq_refl eq_refl).
  right. reflexivity.
Defined.

(** X19.  A batch within the limit in which some URL is rejected by the
    URL constructor is refused as a whole, with nothing requested, also
    not for the URLs that are fine; the error text lists the rejected
    URLs, which are exactly the URLs of the list the constructor
    rejects. *)
Theorem batch_with_rejected_urls_requests_nothing (w : World) (urls : list jsstring)
    (t : Trace) :
  (length urls <= 5)%nat ->
  invalidUrls w urls <> [] ->
  handleBatchAnalyzeWebpages w urls t
  = (Return (error_response
               (js "以下のURLの形式が無効です: " ++ join (js ", ") (invalidUrls w urls)
                  ++ js "\nすべてのURLはhttp://またはhttps://で始まる必要があります。\nInvalid URL format for: "
                  ++ join (js ", ") (invalidUrls w urls)
                  ++ js "\nAll URLs must start with http:// or https:// and be properly formatted.")),
     t)
  /\ (forall u, u ∈ invalidUrls w urls <-> u ∈ urls /\ URL_new w u = None).
Proof.
  intros Hlen Hinvalid. split.
  - unfold handleBatchAnalyzeWebpages.
    destruct (Nat.ltb_spec 5 (length urls)) as [H|_]; [lia|]. cbn zeta.
    destruct (invalidUrls w urls) as [|bad rest]; [contradiction|]. reflexivity.
  - intros u. unfold invalidUrls. rewrite list_elem_of_filter. tauto.
Qed.

Lemma batch_with_rejected_urls_requests_nothing_witness :
  (length [js "https://example.com"; js "invalid-url"] <= 5)%nat
  /\ invalidUrls Examples.serving_AB [js "https://example.com"; js "invalid-url"]
     = [js "invalid-url"]
  /\ (handleBatchAnalyzeWebpages Examples.serving_AB
        [js "https://example.com"; js "invalid-url"] []).2 = [].
Proof.
  split; [simpl; lia|]. split; [reflexivity|].
  destruct (batch_with_rejected_urls_requests_nothing Examples.serving_AB
              [js "https://example.com"; js "invalid-url"] []) as [H _];
    [simpl; lia|discriminate|].
  rewrite H. reflexivity.
Defined.

(** X20.  [validateApiKeys] always returns: [true] without any lookup in
    the test mode, and otherwise [true] exactly when both environment
    variables are set and not empty; whenever it returns [true], the keys
    that [getApiKeys] hands out are both non-empty. *)
Theorem validated_keys_are_not_empty (w : World) (t : Trace) :
  exists valid t',
    Config.validateApiKeys w t = (Return valid, t')
    /\ (test_mode w = true -> valid = true /\ t' = t)
    /\ (test_mode w = false ->
        (valid = true <->
         (exists k, GOOGLE_API_KEY w = Some k /\ k <> [])
         /\ (exists e, GOOGLE_SEARCH_ENGINE_ID w = Some e /\ e <> [])))
    /\ (valid = true -> (Config.api_keys w).1 <> [] /\ (Config.api_keys w).2 <> []).
Proof.
  assert (Hor : forall v fallback,
             truthy (Config.env_or v fallback) = true
             <-> (exists k, v = Some k /\ k <> []) \/ fallback <> []).
  { intros [[|c k]|] [|d f]; simpl; split; intros H; try discriminate; try reflexivity;
      try (left; eexists; split; [reflexivity|discriminate]);
      try (right; discriminate);
      destruct H as [(k' & Hk & Hne)|Hne]; try discriminate; try contradiction;
      inversion Hk; subst; contradiction. }
  assert (Hnil : forall s : jsstring, truthy s = true <-> s <> []).
  { intros [|c s]; simpl; split; intros H; try discriminate; try reflexivity; contradiction. }
  unfold Config.validateApiKeys, Config.api_keys.
  destruct (test_mode w) eqn:Hmode.
  - exists true, t. split; [reflexivity|]. split; [intros _; split; reflexivity|].
    split; [discriminate|]. intros _. cbn [fst snd].
    split; apply Hnil, Hor; right; vm_compute; discriminate.
  - unfold bind, Config.getApiKeys, bind, emit, ret, Config.api_keys. rewrite Hmode.
    cbn [fst snd]. eexists _, _. split; [reflexivity|].
    split; [discriminate|]. split.
    + intros _. rewrite andb_true_iff, !Hor. split.
      * intros [[H1|H1] [H2|H2]]; try contradiction. split; assumption.
      * intros [H1 H2]. split; left; assumption.
    + rewrite andb_true_iff, !Hnil. tauto.
Qed.

(** X21.  The public wrappers throw the handler's error text: [search]
    for a blank query, [extractWebpage] for a string the URL constructor
    rejects, and [batchExtractWebpages] for more than five URLs, each
    without any credential lookup or request. *)
Theorem wrappers_throw_the_error_text (w : World) (parse : jsstring -> Outcome JSValue)
    (t : Trace) :
  (forall query numResults options,
     Forall (fun c => is_whitespace c = true) query ->
     search w parse query numResults options t = (Throw (Err EMPTY_QUERY), t))
  /\ (forall url,
        URL_new w url = None ->
        extractWebpage w parse url t = (Throw (Err INVALID_URL), t))
  /\ (forall urls,
        (5 < length urls)%nat ->
        batchExtractWebpages w parse urls t = (Throw (Err TOO_MANY_URLS), t)).
Proof.
  split; [|split].
  - intros query numResults options Hblank.
    unfold search, bind, handleSearch. cbn [GoogleSearchService.query].
    rewrite (trim_whitespace _ Hblank). reflexivity.
  - intros url Hurl. unfold extractWebpage, bind.
    rewrite (handleAnalyzeWebpage_invalid w url t Hurl). reflexivity.
  - intros urls Hlen. apply Nat.ltb_lt in Hlen.
    unfold batchExtractWebpages, bind, handleBatchAnalyzeWebpages. rewrite Hlen.
    reflexivity.
Qed.

Lemma wrappers_throw_the_error_text_witness :
  search Examples.serving_AB (fun _ => Return JNull) [] None None []
  = (Throw (Err EMPTY_QUERY), [])
  /\ extractWebpage Examples.serving_AB (fun _ => Return JNull) (js "invalid-url") []
     = (Throw (Err INVALID_URL), [])
  /\ batchExtractWebpages Examples.serving_AB (fun _ => Return JNull) Examples.six_urls []
     = (Throw (Err TOO_MANY_URLS), []).
Proof.
  destruct (wrappers_throw_the_error_text Examples.serving_AB (fun _ => Return JNull) [])
    as (Hsearch & Hpage & Hbatch).
  split; [apply Hsearch; constructor|].
  split; [apply Hpage; reflexivity|].
  apply Hbatch. simpl. lia.
Defined.

(** X22.  The tool dispatcher throws, without any effect, for a tool name
    other than the three it knows, for arguments that are not an object,
    and for [extract_multiple_webpages] when [urls] is not an array. *)
Theorem malformed_tool_calls_throw (w : World) (name arguments : JSValue) (t : Trace) :
  (is_string name (js "google_search") = false ->
   is_string name (js "extract_webpage_content") = false ->
   is_string name (js "extract_multiple_webpages") = false ->
   callTool w name arguments t
   = (Throw (Err (js "Unknown tool: " ++ to_string w name)), t))
  /\ (is_object arguments = false ->
      exists message, callTool w name arguments t = (Throw (Err message), t))
  /\ (name = JStr (js "extract_multiple_webpages") ->
      Value.isArray (Value.get_opt arguments (Named (js "urls"))) = false ->
      callTool w name arguments t
      = (Throw (Err (js "Invalid arguments for extract_multiple_webpages tool")), t)).
Proof.
  split; [|split].
  - intros H1 H2 H3. unfold callTool. rewrite H1, H2, H3. reflexivity.
  - intros Hobj. unfold callTool. rewrite Hobj. cbn [andb].
    destruct (is_string name (js "google_search")); [eexists; reflexivity|].
    destruct (is_string name (js "extract_webpage_content")); [eexists; reflexivity|].
    destruct (is_string name (js "extract_multiple_webpages")); eexists; reflexivity.
  - intros -> Harr. unfold callTool.
    replace (is_string (JStr (js "extract_multiple_webpages")) (js "google_search"))
      with false by (vm_compute; reflexivity).
    replace (is_string (JStr (js "extract_multiple_webpages")) (js "extract_webpage_content"))
      with false by (vm_compute; reflexivity).
    replace (is_string (JStr (js "extract_multiple_webpages"))
               (js "extract_multiple_webpages"))
      with true by (vm_compute; reflexivity).
    destruct (is_object arguments && has_key (js "urls") arguments); [|reflexivity].
    destruct (Value.get_opt arguments (Named (js "urls"))); try reflexivity. discriminate.
Qed.

Lemma malformed_tool_calls_throw_witness :
  callTool Examples.serving_AB (JStr (js "translate")) (JObj []) []
  = (Throw (Err (js "Unknown tool: " ++ js "translate")), [])
  /\ (exists message,
        callTool Examples.serving_AB (JStr (js "google_search")) JNull []
        = (Throw (Err message), []))
  /\ callTool Examples.serving_AB (JStr (js "extract_multiple_webpages"))
       (JObj [(js "urls", JStr (js "https://example.com"))]) []
     = (Throw (Err (js "Invalid arguments for extract_multiple_webpages tool")), []).
Proof.
  split; [|split].
  - destruct (malformed_tool_calls_throw Examples.serving_AB (JStr (js "translate"))
                (JObj []) []) as (Hunknown & _ & _).
    apply Hunknown; vm_compute; reflexivity.
  - destruct (malformed_tool_calls_throw Examples.serving_AB (JStr (js "google_search"))
                JNull []) as (_ & Hobject & _).
    apply Hobject. reflexivity.
  - destruct (malformed_tool_calls_throw Examples.serving_AB
                (JStr (js "extract_multiple_webpages"))
                (JObj [(js "urls", JStr (js "https://example.com"))]) [])
      as (_ & _ & Harray).
    apply Harray; vm_compute; reflexivity.
Defined.

(** X23.  A [google_search] call whose [query] is a string and whose
    [num_results] is absent or not a number runs the search as if no count
    had been given; the filters that are not strings are dropped the same
    way. *)
Theorem tool_call_runs_the_search (w : World) (fields : list (jsstring * JSValue))
    (q : jsstring) (t : Trace) :
  Value.field (js "query") fields = Some (JStr q) ->
  (forall x, Value.field (js "num_results") fields <> Some (JNum x)) ->
  callTool w (JStr (js "google_search")) (JObj fields) t
  = handleSearch w
      {| query := q;
         num_results := None;
         date_restrict :=
           string_or_undefined (Value.get_opt (JObj fields) (Named (js "date_restrict")));
         language := string_or_undefined (Value.get_opt (JObj fields) (Named (js "language")));
         country := string_or_undefined (Value.get_opt (JObj fields) (Named (js "country")));
         safe_search :=
           string_or_undefined (Value.get_opt (JObj fields) (Named (js "safe_search"))) |} t.
Proof.
  intros Hq Hn. unfold callTool.
  replace (is_string (JStr (js "google_search")) (js "google_search"))
    with true by (vm_compute; reflexivity).
  cbn [is_object andb has_key]. rewrite Hq.
  rewrite bool_decide_eq_true_2 by eauto.
  unfold Value.get_opt at 1 2. unfold Value.get at 1 2. rewrite Hq. cbn [default to_string].
  destruct (Value.field (js "num_results") fields) as [[| | |x| | | |]|] eqn:Hfield;
    try reflexivity.
  exfalso. exact (Hn x eq_refl).
Qed.

Lemma tool_call_runs_the_search_witness :
  Value.field (js "query") Examples.loose_call = Some (JStr (js "news"))
  /\ (forall x, Value.field (js "num_results") Examples.loose_call <> Some (JNum x))
  /\ callTool (Examples.answering Examples.empty_items) (JStr (js "google_search"))
       (JObj Examples.loose_call) []
     = handleSearch (Examples.answering Examples.empty_items)
         {| query := js "news"; num_results := None; date_restrict := None;
            language := None; country := None; safe_search := None |} [].
Proof.
  split; [reflexivity|]. split; [intros x; discriminate|].
  apply (tool_call_runs_the_search (Examples.answering Examples.empty_items) Examples.loose_call
           (js "news") []); [reflexivity|intros x; discriminate].
Defined.

(** X24.  For a URL the constructor accepts, the page handler answers
    with the serialised content when [fetchContent] returned one, and with
    an error response that quotes the thrown message in both languages
    when it threw. *)
Theorem page_handler_reports_the_fetch (w : World) (url : jsstring) (u : URL) (t t' : Trace) :
  URL_new w url = Some u ->
  (forall c,
     fetchContent w url t = (Return c, t') ->
     handleAnalyzeWebpage w url t = (Return (success w (Page c)), t'))
  /\ (forall message,
        fetchContent w url t = (Throw (Err message), t') ->
        handleAnalyzeWebpage w url t
        = (Return (error_response
                     (js "ウェブページの内容抽出" ++ js "に失敗しました: " ++ message ++ js "\n"
                        ++ js "ウェブページの内容抽出" ++ js " failed: " ++ message)), t')).
Proof.
  intros Hurl. split.
  - intros c H. unfold handleAnalyzeWebpage. rewrite Hurl.
    unfold try_catch, bind. rewrite H. reflexivity.
  - intros message H. unfold handleAnalyzeWebpage. rewrite Hurl.
    unfold try_catch, bind. rewrite H. unfold lift.
    rewrite (handleError_message w (Err message) message (js "ウェブページの内容抽出"))
      by (left; reflexivity).
    reflexivity.
Qed.

Lemma page_handler_reports_the_fetch_witness :
  URL_new Examples.offline Examples.example_com
  = Some {| protocol := js "https:"; hostname := js "example.com" |}
  /\ handleAnalyzeWebpage Examples.serving_AB Examples.example_com []
     = (Return (success Examples.serving_AB (Page (extract Examples.example_com Examples.doc_AB))),
        [AxiosGet (page_request Examples.example_com)])
  /\ handleAnalyzeWebpage Examples.offline Examples.example_com []
     = (Return (error_response
                  (js "ウェブページの内容抽出" ++ js "に失敗しました: "
                     ++ js "コンテンツ抽出エラー: connect ECONNREFUSED" ++ js "\n"
                     ++ js "ウェブページの内容抽出" ++ js " failed: "
                     ++ js "コンテンツ抽出エラー: connect ECONNREFUSED")),
        [AxiosGet (page_request Examples.example_com)]).
Proof.
  split; [vm_compute; reflexivity|]. split.
  - destruct (page_handler_reports_the_fetch Examples.serving_AB Examples.example_com
                {| protocol := js "https:"; hostname := js "example.com" |} []
                [AxiosGet (page_request Examples.example_com)]) as [Hok _];
      [vm_compute; reflexivity|].
    apply Hok. vm_compute. reflexivity.
  - destruct (page_handler_reports_the_fetch Examples.offline Examples.example_com
                {| protocol := js "https:"; hostname := js "example.com" |} []
                [AxiosGet (page_request Examples.example_com)]) as [_ Hfail];
      [vm_compute; reflexivity|].
    apply Hfail. vm_compute. reflexivity.
Defined.

Section MockBatch.
Context (w : World).

Lemma mock_loop_entries (urls : list jsstring) (t : Trace) :
  Forall (fun u => URL_new w u <> None) urls ->
  forall acc : WebpageAnalysisResponse,
  exists results,
    foldM (fun mockResults url =>
             let* content := lift (generateMockWebpageContent w url) in
             ret (Obj.assign_object mockResults url (Content content)))
          urls acc t = (Return results, t)
    /\ Obj.keys results = Obj.keys acc ∪ list_to_set (filter (fun u => u <> Obj.PROTO) urls)
    /\ (forall u e, own results !! u = Some e ->
        own acc !! u = Some e \/ (has_error e = false /\ u ∈ urls)).
Proof.
  induction 1 as [|url urls Hurl _ IH]; intros acc; simpl.
  - exists acc. split; [reflexivity|]. split; [|intros u e H; left; exact H].
    rewrite ?filter_nil, ?list_to_set_nil, union_empty_r_L. reflexivity.
  - assert (Hmock : exists c, generateMockWebpageContent w url = Return c).
    { unfold generateMockWebpageContent.
      destruct (URL_new w url); [eexists; reflexivity|contradiction]. }
    destruct Hmock as [c Hc].
    unfold bind at 1. unfold bind at 1. unfold lift. rewrite Hc. unfold ret at 1.
    destruct (IH (Obj.assign_object acc url (Content c))) as (results & Hres & Hkeys & Hown).
    exists results. split; [exact Hres|]. split.
    + rewrite Hkeys, filter_cons. unfold Obj.keys, Obj.assign_object.
      destruct (decide (url = Obj.PROTO)) as [Hp|Hp]; cbn [own].
      * case_decide; [contradiction|]. reflexivity.
      * case_decide; [|contradiction].
        rewrite dom_insert_L, list_to_set_cons, (comm_L (∪) {[url]} (dom (own acc))).
        rewrite (assoc_L (∪)). reflexivity.
    + intros u e H. apply Hown in H as [H|[Hok Hin]].
      * rewrite assign_object_lookup in H. case_decide as Hk.
        -- destruct Hk as [_ ->]. inversion H; subst e.
           right. split; [reflexivity|]. apply elem_of_cons. left. reflexivity.
        -- left. exact H.
      * right. split; [exact Hok|]. apply elem_of_cons. right. exact Hin.
Qed.

End MockBatch.

(** X25.  In the test mode a batch of URLs that the constructor accepts
    returns, for a list of any length, an object whose keys are the URLs
    other than [__proto__] and whose entries are all pages; nothing is
    requested. *)
Theorem mock_batch_has_no_limit (w : World) (urls : list jsstring) (t : Trace) :
  test_mode w = true ->
  Forall (fun u => URL_new w u <> None) urls ->
  exists results,
    batchFetchContent w urls t = (Return results, t)
    /\ Obj.keys results = list_to_set (filter (fun u => u <> Obj.PROTO) urls)
    /\ forall u e, own results !! u = Some e -> has_error e = false.
Proof.
  intros Hmode Hvalid. unfold batchFetchContent. rewrite Hmode.
  destruct (mock_loop_entries w urls t Hvalid Obj.empty) as (results & Hres & Hkeys & Hown).
  exists results. split; [exact Hres|]. split.
  - rewrite Hkeys. unfold Obj.keys, Obj.empty. cbn [own].
    rewrite dom_empty_L, union_empty_l_L. reflexivity.
  - intros u e H. apply Hown in H as [H|[Hok _]]; [|exact Hok].
    simpl in H. rewrite lookup_empty in H. discriminate.
Qed.

Lemma mock_batch_has_no_limit_witness :
  test_mode Examples.testing = true
  /\ Forall (fun u => URL_new Examples.testing u <> None) Examples.six_urls
  /\ exists results,
       batchFetchContent Examples.testing Examples.six_urls [] = (Return results, [])
       /\ Obj.keys results = list_to_set (filter (fun u => u <> Obj.PROTO) Examples.six_urls)
       /\ forall u e, own results !! u = Some e -> has_error e = false.
Proof.
  assert (H : Forall (fun u => URL_new Examples.testing u <> None) Examples.six_urls)
    by (repeat constructor; discriminate).
  split; [reflexivity|]. split; [exact H|].
  apply (mock_batch_has_no_limit Examples.testing Examples.six_urls []); [reflexivity|exact H].
Defined.
